(** * Medication adherence (PDC) queries of the AIR-MS helpers

    The repository computes the Proportion of Days Covered with SQL
    templates that the Python layer only builds and forwards.  This file
    embeds the two templates of [calculate_pdc_server_side]
    ([airms_helper_fixed.py] and [airms_helper_v3.py]) and the one of
    [get_detailed_gaps] as list functions, one definition per common table
    expression, and proves the properties the specification states about
    them.

    Conventions of the embedding:
    - a calendar date is its day number (days since 1970-01-01), so that
      [DAYS_BETWEEN a b = b - a] and [ADD_DAYS d n = d + n];
    - a nullable column is an [option];
    - a table and a CTE are lists of rows; a window function is computed
      from the frame of rows that precede the current one in the window
      order;
    - a ratio rounded to four decimals is the integer number of
      ten-thousandths. *)

From Stdlib Require Import String ZArith List Bool Lia Permutation Sorted.
Import ListNotations.
Open Scope Z_scope.

(** ** SQL building blocks *)

Module SQL.

Definition date := Z.

(** Day number of the proleptic Gregorian date y-m-d (1970-01-01 is 0). *)
Definition TO_DATE (y m d : Z) : date :=
  let y' := if m <=? 2 then y - 1 else y in
  let era := y' / 400 in
  let yoe := y' - era * 400 in
  let mp := (m + 9) mod 12 in
  let doy := (153 * mp + 2) / 5 + d - 1 in
  let doe := yoe * 365 + yoe / 4 - yoe / 100 + doy in
  era * 146097 + doe - 719468.

Definition ADD_DAYS (d : date) (n : Z) : date := d + n.
Definition DAYS_BETWEEN (a b : date) : Z := b - a.

Definition COALESCE (o : option Z) (d : Z) : Z :=
  match o with Some v => v | None => d end.

Definition IS_NOT_NULL {A} (o : option A) : bool :=
  match o with Some _ => true | None => false end.

Definition GREATEST (a b : Z) : Z := Z.max a b.

(** [x IS NOT NULL AND x > 0]: the value when the test holds. *)
Definition positive_value (o : option Z) : option Z :=
  match o with
  | Some v => if 0 <? v then Some v else None
  | None => None
  end.

Definition SUM (l : list Z) : Z := fold_right Z.add 0 l.

(** MAX and MIN of a frame or group: NULL on an empty one. *)
Definition MAX (l : list Z) : option Z :=
  match l with
  | [] => None
  | x :: t => Some (fold_left Z.max t x)
  end.

Definition MIN (l : list Z) : option Z :=
  match l with
  | [] => None
  | x :: t => Some (fold_left Z.min t x)
  end.

(** Aggregates of a GROUP BY group, which always has a first row. *)
Definition MAX1 (x : Z) (t : list Z) : Z := fold_left Z.max t x.
Definition MIN1 (x : Z) (t : list Z) : Z := fold_left Z.min t x.

Definition COUNT {A} (l : list A) : Z := Z.of_nat (length l).

(** [f] applied to each row together with the rows before it in the window
    order: the frame ROWS BETWEEN UNBOUNDED PRECEDING AND 1 PRECEDING.
    The frame ROWS UNBOUNDED PRECEDING is [preceding ++ [x]]. *)
Fixpoint OVER {A B} (f : list A -> A -> B) (preceding l : list A) : list B :=
  match l with
  | [] => []
  | x :: t => f preceding x :: OVER f (preceding ++ [x]) t
  end.

(** LAG(x): the value of the row just before the current one. *)
Definition LAG {A} (preceding : list A) : option A :=
  match rev preceding with
  | [] => None
  | x :: _ => Some x
  end.

(** LEAD(x): the value of the row just after the current one. *)
Fixpoint LEAD {A} (l : list A) : list (A * option A) :=
  match l with
  | [] => []
  | x :: t => (x, hd_error t) :: LEAD t
  end.

(** ORDER BY: a stable insertion sort for the order [leb]. *)
Section OrderBy.
Context {A : Type} (leb : A -> A -> bool).

Fixpoint insert (x : A) (l : list A) : list A :=
  match l with
  | [] => [x]
  | y :: t => if leb x y then x :: l else y :: insert x t
  end.

Fixpoint ORDER_BY (l : list A) : list A :=
  match l with
  | [] => []
  | x :: t => insert x (ORDER_BY t)
  end.
End OrderBy.

(** Every left row with each right row that matches it, or once with NULLs
    when none does. *)
Definition LEFT_JOIN {A B} (on : A -> B -> bool) (l : list A) (r : list B)
  : list (A * option B) :=
  flat_map (fun a =>
    match filter (on a) r with
    | [] => [(a, None)]
    | ms => map (fun b => (a, Some b)) ms
    end) l.

(** The distinct values of a grouping column. *)
Definition DISTINCT (l : list Z) : list Z := nodup Z.eq_dec l.

Definition pair_eq_dec (a b : Z * Z) : {a = b} + {a <> b}.
Proof. decide equality; apply Z.eq_dec. Defined.

Definition DISTINCT2 (l : list (Z * Z)) : list (Z * Z) := nodup pair_eq_dec l.

(** ROUND(CAST(num AS DECIMAL(10,4)) / CAST(den AS DECIMAL(10,4)), 4) for
    [den > 0], in ten-thousandths, halves away from zero.  The casts are
    exact on day counts below 10^6, and are taken as exact. *)
Definition ROUND4_div (num den : Z) : Z :=
  if 0 <=? num
  then (2 * (10000 * num) + den) / (2 * den)
  else - ((2 * (10000 * - num) + den) / (2 * den)).

End SQL.
Import SQL.

(** ** Tables of the OMOP schema *)

Record DRUG_EXPOSURE := {
  person_id : Z;
  drug_concept_id : Z;
  drug_exposure_id : Z;
  drug_exposure_start_date : option date;
  drug_exposure_end_date : option date;
  days_supply : option Z;
  refills : option Z;
  drug_type_concept_id : option Z
}.

Record CONCEPT := {
  concept_id : Z;
  concept_name : option string;
  domain_id : string;
  concept_class_id : option string
}.

Record PERSON := {
  p_person_id : Z;
  year_of_birth : option Z
}.

(** A row of drug_exposures_cleaned / drug_exposures_with_dates: one coverage
    interval. *)
Record exposure := {
  e_person_id : Z;
  e_drug_concept_id : Z;
  e_drug_exposure_id : Z;
  start_date : date;
  end_date : date
}.

(** The WHERE clause shared by every template: the start date lies in the
    analysis range (a NULL start date satisfies no comparison) and, with
    [filter_drug_type], the drug type is one of the three listed. *)
Definition where_clause (from to : date) (filter_drug_type : bool)
  (de : DRUG_EXPOSURE) : bool :=
  match drug_exposure_start_date de with
  | None => false
  | Some s =>
      (from <=? s) && (s <=? to) &&
      (if filter_drug_type
       then match drug_type_concept_id de with
            | Some t => existsb (Z.eqb t) [38000175; 38000176; 581373]
            | None => false
            end
       else true)
  end.

(** Rows of one (person_id, drug_concept_id) partition, as the
    (start_date, end_date) pairs the window expressions read. *)
Definition partition_of (k : Z * Z) (rows : list exposure) : list (date * date) :=
  map (fun r => (start_date r, end_date r))
      (filter (fun r => (e_person_id r =? fst k) && (e_drug_concept_id r =? snd k)) rows).

Definition partition_keys (rows : list exposure) : list (Z * Z) :=
  DISTINCT2 (map (fun r => (e_person_id r, e_drug_concept_id r)) rows).

(** ORDER BY start_date, end_date. *)
Definition by_start_end (a b : date * date) : bool :=
  (fst a <? fst b) || ((fst a =? fst b) && (snd a <=? snd b)).

(** The severity label of a gap, the CASE of both [get_detailed_gaps]. *)
Definition gap_severity (gap_days : Z) : string :=
  if 90 <=? gap_days then "Critical Gap (90+ days)"%string
  else if 30 <=? gap_days then "Major Gap (30-89 days)"%string
  else if 14 <=? gap_days then "Moderate Gap (14-29 days)"%string
  else if 7 <=? gap_days then "Minor Gap (7-13 days)"%string
  else "Minimal Gap (<7 days)"%string.

(** A row of the cleaned CTE of [get_detailed_gaps], which also carries the
    raw days_supply column. *)
Record fill := {
  f_exposure : exposure;
  f_days_supply : option Z
}.

(** A row of the result of [get_detailed_gaps]. *)
Record gap_detail := {
  gd_person_id : Z;
  gd_drug_concept_id : Z;
  gd_drug_name : option string;
  fill_sequence : Z;
  fill_before_gap_date : date;
  fill_before_gap_end_date : date;
  gap_start_date : date;
  gap_end_date : option date;
  gd_gap_days : Z;
  gd_gap_severity : string;
  fill_after_gap_date : option date;
  days_supply_before_gap : option Z
}.

Definition fill_keys (rows : list fill) : list (Z * Z) :=
  partition_keys (map f_exposure rows).

Definition fills_of (k : Z * Z) (rows : list fill) : list fill :=
  filter (fun r => (e_person_id (f_exposure r) =? fst k)
                   && (e_drug_concept_id (f_exposure r) =? snd k)) rows.

(** ORDER BY start_date, the window order of [get_detailed_gaps]. *)
Definition by_start (a b : fill) : bool :=
  start_date (f_exposure a) <=? start_date (f_exposure b).

(** ORDER BY person_id, drug_concept_id, fill_sequence. *)
Definition by_person_drug_sequence (a b : gap_detail * option CONCEPT) : bool :=
  let x := fst a in
  let y := fst b in
  (gd_person_id x <? gd_person_id y)
  || ((gd_person_id x =? gd_person_id y)
      && ((gd_drug_concept_id x <? gd_drug_concept_id y)
          || ((gd_drug_concept_id x =? gd_drug_concept_id y)
              && (fill_sequence x <=? fill_sequence y)))).

Definition name_of (c : option CONCEPT) : option string :=
  match c with
  | Some c => concept_name c
  | None => None
  end.

Definition class_of (c : option CONCEPT) : option string :=
  match c with
  | Some c => concept_class_id c
  | None => None
  end.

(** execute_query: the query as it is, or wrapped in SELECT TOP limit when
    [limit] is given and not 0 (Python tests [if limit]).  TOP takes an
    unsigned integer: a negative limit makes the engine reject the query,
    and the error is raised again ([None]).  TOP keeps [limit] rows of the
    result; the embedding takes the first ones. *)
Definition execute_query {A} (rows : list A) (limit : option Z) : option (list A) :=
  match limit with
  | None => Some rows
  | Some n =>
      if n =? 0 then Some rows
      else if n <? 0 then None
      else Some (firstn (Z.to_nat n) rows)
  end.

(** get_actual_date_range: MIN and MAX of drug_exposure_start_date over the
    whole table, NULL when no row has one. *)
Definition get_actual_date_range (T : list DRUG_EXPOSURE) : option date * option date :=
  let starts := flat_map (fun de => match drug_exposure_start_date de with
                                    | Some s => [s]
                                    | None => []
                                    end) T in
  (MIN starts, MAX starts).


(** ** airms_helper_fixed.py *)

Module Fixed.

(** CASE ... END AS end_date of drug_exposures_cleaned. *)
Definition calculated_end_date (de : DRUG_EXPOSURE) (s : date) : date :=
  match drug_exposure_end_date de with
  | Some e => e
  | None =>
      match positive_value (days_supply de) with
      | Some d => ADD_DAYS s (d - 1)
      | None =>
          match positive_value (refills de) with
          | Some r => ADD_DAYS s (r * 30 - 1)
          | None => ADD_DAYS s 29
          end
      end
  end.

Definition drug_exposures_cleaned (from to : date) (filter_drug_type : bool)
  (T : list DRUG_EXPOSURE) : list exposure :=
  flat_map (fun de =>
    match drug_exposure_start_date de with
    | Some s =>
        [ {| e_person_id := person_id de;
             e_drug_concept_id := drug_concept_id de;
             e_drug_exposure_id := drug_exposure_id de;
             start_date := s;
             end_date := calculated_end_date de s |} ]
    | None => []
    end) (filter (where_clause from to filter_drug_type) T).

(** The inner CASE of coverage_groups: 0 when the row starts no later than
    one day after the latest end date of the rows before it, 1 otherwise. *)
Definition starts_new_group (preceding : list (date * date)) (r : date * date) : Z :=
  if fst r <=? COALESCE (MAX (map snd preceding)) (TO_DATE 1900 1 1) + 1
  then 0 else 1.

(** coverage_groups for one partition: each row with the running sum of the
    flags up to it. *)
Definition coverage_groups (partition : list (date * date))
  : list ((date * date) * Z) :=
  let rows := ORDER_BY by_start_end partition in
  let flags := OVER starts_new_group [] rows in
  combine rows (OVER (fun preceding f => SUM (preceding ++ [f])) [] flags).

Record merged_period := {
  coverage_group : Z;
  period_start : date;
  period_end : date;
  num_fills : Z;
  days_covered : Z
}.

(** merged_periods: GROUP BY coverage_group within the partition. *)
Definition merged_periods (cg : list ((date * date) * Z)) : list merged_period :=
  flat_map (fun g =>
    match filter (fun r => snd r =? g) cg with
    | [] => []
    | r :: rs =>
        let ps := MIN1 (fst (fst r)) (map (fun x => fst (fst x)) rs) in
        let pe := MAX1 (snd (fst r)) (map (fun x => snd (fst x)) rs) in
        [ {| coverage_group := g;
             period_start := ps;
             period_end := pe;
             num_fills := COUNT (r :: rs);
             days_covered := DAYS_BETWEEN ps pe + 1 |} ]
    end) (DISTINCT (map snd cg)).

Record gap_row := {
  g_period : merged_period;
  gap_days : Z
}.

Definition by_period_start (a b : merged_period) : bool :=
  period_start a <=? period_start b.

(** The CASE of gaps: the days between a period and the next one in
    period_start order, 0 when there is none. *)
Definition gap_to_next (pn : merged_period * option merged_period) : gap_row :=
  {| g_period := fst pn;
     gap_days := match snd pn with
                 | Some n => DAYS_BETWEEN (period_end (fst pn)) (period_start n) - 1
                 | None => 0
                 end |}.

Definition gaps (ps : list merged_period) : list gap_row :=
  map gap_to_next (LEAD (ORDER_BY by_period_start ps)).

Record pdc_row := {
  pr_person_id : Z;
  pr_drug_concept_id : Z;
  total_days_covered : Z;
  total_fills : Z;
  num_periods : Z;
  num_gaps : Z;
  total_gap_days : Z;
  max_gap_days : Z;
  first_exposure_date : date;
  last_exposure_date : date;
  treatment_duration : Z;
  pdc : Z
}.

(** The aggregates of patient_drug_pdc over the gaps rows of one group. *)
Definition patient_drug_pdc_row (k : Z * Z) (gs : list gap_row) : option pdc_row :=
  match gs with
  | [] => None
  | g :: t =>
      let first := MIN1 (period_start (g_period g))
                        (map (fun x => period_start (g_period x)) t) in
      let last := MAX1 (period_end (g_period g))
                       (map (fun x => period_end (g_period x)) t) in
      let covered := SUM (map (fun x => days_covered (g_period x)) gs) in
      Some {| pr_person_id := fst k;
              pr_drug_concept_id := snd k;
              total_days_covered := covered;
              total_fills := SUM (map (fun x => num_fills (g_period x)) gs);
              num_periods := COUNT gs;
              num_gaps := SUM (map (fun x => if 0 <? gap_days x then 1 else 0) gs);
              total_gap_days := SUM (map gap_days gs);
              max_gap_days := MAX1 (gap_days g) (map gap_days t);
              first_exposure_date := first;
              last_exposure_date := last;
              treatment_duration := DAYS_BETWEEN first last + 1;
              pdc := if 0 <? DAYS_BETWEEN first last + 1
                     then ROUND4_div covered (DAYS_BETWEEN first last + 1)
                     else 0 |}
  end.

(** The Coverage Aggregator on the intervals of one group. *)
Definition aggregate (k : Z * Z) (intervals : list (date * date)) : option pdc_row :=
  patient_drug_pdc_row k (gaps (merged_periods (coverage_groups intervals))).

Definition patient_drug_pdc (cleaned : list exposure) : list pdc_row :=
  flat_map (fun k =>
    match aggregate k (partition_of k cleaned) with
    | Some r => [r]
    | None => []
    end) (partition_keys cleaned).

Record result_row := {
  r_summary : pdc_row;
  drug_name : option string;
  r_concept_class_id : option string
}.

Definition by_person_drug (a b : pdc_row * option CONCEPT) : bool :=
  (pr_person_id (fst a) <? pr_person_id (fst b))
  || ((pr_person_id (fst a) =? pr_person_id (fst b))
      && (pr_drug_concept_id (fst a) <=? pr_drug_concept_id (fst b))).

(** The whole query.  The adherence_status column, whose thresholds are
    floating-point text, is left out of the rows. *)
Definition calculate_pdc_server_side (from to : date) (min_treatment_days : Z)
  (filter_drug_type : bool) (T : list DRUG_EXPOSURE) (C : list CONCEPT)
  : list result_row :=
  let summaries := patient_drug_pdc (drug_exposures_cleaned from to filter_drug_type T) in
  let joined := LEFT_JOIN (fun p c => pr_drug_concept_id p =? concept_id c) summaries C in
  let kept := filter (fun pc => min_treatment_days <=? treatment_duration (fst pc)) joined in
  map (fun pc =>
         {| r_summary := fst pc;
            drug_name := name_of (snd pc);
            r_concept_class_id := class_of (snd pc) |})
      (ORDER_BY by_person_drug kept).

(** *** get_detailed_gaps *)

Definition fills_cleaned (from to : date) (filter_drug_type : bool)
  (T : list DRUG_EXPOSURE) : list fill :=
  flat_map (fun de =>
    match drug_exposure_start_date de with
    | Some s =>
        [ {| f_exposure :=
               {| e_person_id := person_id de;
                  e_drug_concept_id := drug_concept_id de;
                  e_drug_exposure_id := drug_exposure_id de;
                  start_date := s;
                  end_date := calculated_end_date de s |};
             f_days_supply := days_supply de |} ]
    | None => []
    end) (filter (where_clause from to filter_drug_type) T).

Record gaps_detail_row := {
  d_fill : fill;
  next_start_date : option date;
  d_gap_days : option Z;
  d_fill_sequence : Z
}.

(** gaps_detail for one partition: LEAD(start_date), the days to it (NULL on
    the last fill) and ROW_NUMBER, in start_date order. *)
Definition gaps_detail (partition : list fill) : list gaps_detail_row :=
  OVER (fun preceding fn =>
          let next := option_map (fun n => start_date (f_exposure n)) (snd fn) in
          {| d_fill := fst fn;
             next_start_date := next;
             d_gap_days :=
               match next with
               | Some n => Some (DAYS_BETWEEN (end_date (f_exposure (fst fn))) n - 1)
               | None => None
               end;
             d_fill_sequence := COUNT preceding + 1 |})
       [] (LEAD (ORDER_BY by_start partition)).

Definition get_detailed_gaps (from to : date) (min_gap_days : Z)
  (filter_drug_type : bool) (T : list DRUG_EXPOSURE) (C : list CONCEPT)
  : list gap_detail :=
  let cleaned := fills_cleaned from to filter_drug_type T in
  let detail := flat_map (fun k => gaps_detail (fills_of k cleaned)) (fill_keys cleaned) in
  let joined :=
    LEFT_JOIN (fun g c => e_drug_concept_id (f_exposure (d_fill g)) =? concept_id c)
              detail C in
  let selected :=
    flat_map (fun gc =>
      match d_gap_days (fst gc) with
      | Some gd =>
          if min_gap_days <=? gd
          then
            let e := f_exposure (d_fill (fst gc)) in
            [ ({| gd_person_id := e_person_id e;
                  gd_drug_concept_id := e_drug_concept_id e;
                  gd_drug_name := name_of (snd gc);
                  fill_sequence := d_fill_sequence (fst gc);
                  fill_before_gap_date := start_date e;
                  fill_before_gap_end_date := end_date e;
                  gap_start_date := ADD_DAYS (end_date e) 1;
                  gap_end_date :=
                    option_map (fun n => ADD_DAYS n (-1)) (next_start_date (fst gc));
                  gd_gap_days := gd;
                  gd_gap_severity := gap_severity gd;
                  fill_after_gap_date := next_start_date (fst gc);
                  days_supply_before_gap := f_days_supply (d_fill (fst gc)) |},
               snd gc) ]
          else []
      | None => []
      end) joined in
  map fst (ORDER_BY by_person_drug_sequence selected).

(** *** get_drug_exposures *)

(** A row of get_drug_exposures: the columns of the source row (kept
    whole), start_date, and the two computed columns. *)
Record listing := {
  l_source : DRUG_EXPOSURE;
  l_start_date : date;
  l_calculated_end_date : date;
  l_days_covered : Z
}.

(** CASE ... END AS days_covered. *)
Definition days_covered_of (de : DRUG_EXPOSURE) (s : date) : Z :=
  match drug_exposure_end_date de with
  | Some e => DAYS_BETWEEN s e + 1
  | None =>
      match positive_value (days_supply de) with
      | Some d => d
      | None =>
          match positive_value (refills de) with
          | Some r => r * 30
          | None => 30
          end
      end
  end.

(** ORDER BY person_id, drug_concept_id, drug_exposure_start_date. *)
Definition by_person_drug_start (a b : listing) : bool :=
  let x := l_source a in
  let y := l_source b in
  (person_id x <? person_id y)
  || ((person_id x =? person_id y)
      && ((drug_concept_id x <? drug_concept_id y)
          || ((drug_concept_id x =? drug_concept_id y)
              && (l_start_date a <=? l_start_date b)))).

Definition get_drug_exposures_query (from to : date) (filter_drug_type : bool)
  (T : list DRUG_EXPOSURE) : list listing :=
  ORDER_BY by_person_drug_start
    (flat_map (fun de =>
       match drug_exposure_start_date de with
       | Some s =>
           [ {| l_source := de;
                l_start_date := s;
                l_calculated_end_date := calculated_end_date de s;
                l_days_covered := days_covered_of de s |} ]
       | None => []
       end) (filter (where_clause from to filter_drug_type) T)).

Definition get_drug_exposures (from to : date) (limit : option Z)
  (filter_drug_type : bool) (T : list DRUG_EXPOSURE) : option (list listing) :=
  execute_query (get_drug_exposures_query from to filter_drug_type T) limit.

End Fixed.

(** ** airms_helper_v3.py *)

Module V3.

Section WithMedian.

(** The engine's MEDIAN aggregate over a non-empty group of day counts. *)
Variable MEDIAN : list Z -> Z.

(** The days_supply values the median of drug [d] is taken over: every row
    of the whole table with that drug and a present, positive days_supply. *)
Definition supplies_of (d : Z) (T : list DRUG_EXPOSURE) : list Z :=
  flat_map (fun de =>
    match positive_value (days_supply de) with
    | Some v => [v]
    | None => []
    end) (filter (fun de => drug_concept_id de =? d) T).

(** drug_median_supply: one row (drug_concept_id, median_days_supply) per
    drug that has such a value. *)
Definition drug_median_supply (T : list DRUG_EXPOSURE) : list (Z * Z) :=
  let src := filter (fun de => IS_NOT_NULL (positive_value (days_supply de))) T in
  map (fun d => (d, MEDIAN (supplies_of d T)))
      (DISTINCT (map drug_concept_id src)).

(** CASE ... END AS end_date of drug_exposures_with_dates, on the row of the
    LEFT JOIN with drug_median_supply. *)
Definition calculated_end_date (de : DRUG_EXPOSURE) (dms : option (Z * Z))
  (s : date) : date :=
  match drug_exposure_end_date de with
  | Some e => e
  | None =>
      match positive_value (days_supply de) with
      | Some d => ADD_DAYS s (d - 1)
      | None =>
          match positive_value (refills de) with
          | Some r => ADD_DAYS s (r * 30 - 1)
          | None =>
              match dms with
              | Some m => ADD_DAYS s (snd m - 1)
              | None => ADD_DAYS s 29
              end
          end
      end
  end.

Definition joined_with_median (from to : date) (filter_drug_type : bool)
  (T : list DRUG_EXPOSURE) : list (DRUG_EXPOSURE * option (Z * Z)) :=
  filter (fun j => where_clause from to filter_drug_type (fst j))
         (LEFT_JOIN (fun de m => drug_concept_id de =? fst m) T (drug_median_supply T)).

Definition drug_exposures_with_dates (from to : date) (filter_drug_type : bool)
  (T : list DRUG_EXPOSURE) : list exposure :=
  flat_map (fun j =>
    match drug_exposure_start_date (fst j) with
    | Some s =>
        [ {| e_person_id := person_id (fst j);
             e_drug_concept_id := drug_concept_id (fst j);
             e_drug_exposure_id := drug_exposure_id (fst j);
             start_date := s;
             end_date := calculated_end_date (fst j) (snd j) s |} ]
    | None => []
    end) (joined_with_median from to filter_drug_type T).

Record exposure_gap := {
  w_start_date : date;
  w_end_date : date;
  prev_end_date : option date;
  fill_number : Z;
  gap_days : Z;
  overlap_days : Z;
  adjusted_days_covered : Z
}.

(** exposure_with_prev and exposure_with_gaps for one partition. *)
Definition exposure_with_gaps (partition : list (date * date)) : list exposure_gap :=
  OVER (fun preceding r =>
          let s := fst r in
          let e := snd r in
          let prev := LAG (map snd preceding) in
          let overlaps := match prev with
                          | Some p => s <=? p
                          | None => false
                          end in
          {| w_start_date := s;
             w_end_date := e;
             prev_end_date := prev;
             fill_number := COUNT preceding + 1;
             gap_days := match prev with
                         | Some p => if p <? s then DAYS_BETWEEN p s - 1 else 0
                         | None => 0
                         end;
             overlap_days := match prev with
                             | Some p => if s <=? p then DAYS_BETWEEN s p else 0
                             | None => 0
                             end;
             adjusted_days_covered :=
               match prev with
               | Some p =>
                   if s <=? p
                   then GREATEST 0 (DAYS_BETWEEN s e + 1 - DAYS_BETWEEN s p - 1)
                   else DAYS_BETWEEN s e + 1
               | None => DAYS_BETWEEN s e + 1
               end |})
       [] (ORDER_BY by_start_end partition).

Record pdc_row := {
  pr_person_id : Z;
  pr_drug_concept_id : Z;
  total_days_covered : Z;
  total_fills : Z;
  num_gaps : Z;
  total_gap_days : Z;
  max_gap_days : Z;
  first_exposure_date : date;
  last_exposure_date : date;
  treatment_duration : Z;
  pdc : Z
}.

(** patient_drug_summary with the pdc column of patient_drug_pdc, for one
    group. *)
Definition patient_drug_summary_row (k : Z * Z) (ws : list exposure_gap)
  : option pdc_row :=
  match ws with
  | [] => None
  | w :: t =>
      let first := MIN1 (w_start_date w) (map w_start_date t) in
      let last := MAX1 (w_end_date w) (map w_end_date t) in
      let covered := SUM (map adjusted_days_covered ws) in
      Some {| pr_person_id := fst k;
              pr_drug_concept_id := snd k;
              total_days_covered := covered;
              total_fills := COUNT ws;
              num_gaps := SUM (map (fun x => if 0 <? gap_days x then 1 else 0) ws);
              total_gap_days := SUM (map gap_days ws);
              max_gap_days := MAX1 (gap_days w) (map gap_days t);
              first_exposure_date := first;
              last_exposure_date := last;
              treatment_duration := DAYS_BETWEEN first last + 1;
              pdc := if 0 <? DAYS_BETWEEN first last + 1
                     then ROUND4_div covered (DAYS_BETWEEN first last + 1)
                     else 0 |}
  end.

(** The Coverage Aggregator on the intervals of one group. *)
Definition aggregate (k : Z * Z) (intervals : list (date * date)) : option pdc_row :=
  patient_drug_summary_row k (exposure_with_gaps intervals).

(** patient_drug_pdc, with its WHERE on the treatment duration. *)
Definition patient_drug_pdc (min_treatment_days : Z) (cleaned : list exposure)
  : list pdc_row :=
  filter (fun p => min_treatment_days <=? treatment_duration p)
    (flat_map (fun k =>
       match aggregate k (partition_of k cleaned) with
       | Some r => [r]
       | None => []
       end) (partition_keys cleaned)).

(** A row of patient_condition_summary.  Its three CTEs read only
    CONDITION_OCCURRENCE and CONCEPT; the table is taken as computed. *)
Record condition_summary := {
  cs_person_id : Z;
  total_conditions : Z;
  primary_condition_name : option string
}.

Record result_row := {
  r_summary : pdc_row;
  drug_name : string;
  r_concept_class_id : option string;
  age : option Z;
  primary_condition : string;
  comorbidity_count : Z;
  r_pdc : Z
}.

(** The final CASE on pdc: capped at 1.0 and floored at 0.0. *)
Definition clamp_pdc (p : Z) : Z :=
  if 10000 <? p then 10000 else if p <? 0 then 0 else p.

Definition joined_row : Type :=
  ((pdc_row * option CONCEPT) * option PERSON) * option condition_summary.

Definition by_person_drug (a b : joined_row) : bool :=
  let x := fst (fst (fst a)) in
  let y := fst (fst (fst b)) in
  (pr_person_id x <? pr_person_id y)
  || ((pr_person_id x =? pr_person_id y)
      && (pr_drug_concept_id x <=? pr_drug_concept_id y)).

Definition drug_concept_match (p : pdc_row) (c : CONCEPT) : bool :=
  (pr_drug_concept_id p =? concept_id c) && String.eqb (domain_id c) "Drug".

(** The whole query.  The adherence_status column, whose thresholds are
    floating-point text, is left out of the rows. *)
Definition calculate_pdc_server_side (from to : date) (min_treatment_days : Z)
  (filter_drug_type : bool) (current_year : Z)
  (T : list DRUG_EXPOSURE) (C : list CONCEPT) (P : list PERSON)
  (patient_condition_summary : list condition_summary) : list result_row :=
  let summaries :=
    patient_drug_pdc min_treatment_days
      (drug_exposures_with_dates from to filter_drug_type T) in
  let j1 := LEFT_JOIN drug_concept_match summaries C in
  let j2 := LEFT_JOIN (fun pc p => pr_person_id (fst pc) =? p_person_id p) j1 P in
  let j3 := LEFT_JOIN (fun pcp s => pr_person_id (fst (fst pcp)) =? cs_person_id s)
                      j2 patient_condition_summary in
  let kept := filter (fun j => IS_NOT_NULL (name_of (snd (fst (fst j))))) j3 in
  map (fun j : joined_row =>
         let p := fst (fst (fst j)) in
         {| r_summary := p;
            drug_name := match name_of (snd (fst (fst j))) with
                         | Some n => n
                         | None => "Unknown Drug"%string
                         end;
            r_concept_class_id := class_of (snd (fst (fst j)));
            age := match snd (fst j) with
                   | Some per => option_map (fun y => current_year - y) (year_of_birth per)
                   | None => None
                   end;
            primary_condition :=
              match snd j with
              | Some s => match primary_condition_name s with
                          | Some n => n
                          | None => "No Condition Recorded"%string
                          end
              | None => "No Condition Recorded"%string
              end;
            comorbidity_count := match snd j with
                                 | Some s => total_conditions s
                                 | None => 0
                                 end;
            r_pdc := clamp_pdc (pdc p) |})
      (ORDER_BY by_person_drug kept).

(** *** get_detailed_gaps *)

Definition fills_cleaned (from to : date) (filter_drug_type : bool)
  (T : list DRUG_EXPOSURE) : list fill :=
  flat_map (fun j =>
    match drug_exposure_start_date (fst j) with
    | Some s =>
        [ {| f_exposure :=
               {| e_person_id := person_id (fst j);
                  e_drug_concept_id := drug_concept_id (fst j);
                  e_drug_exposure_id := drug_exposure_id (fst j);
                  start_date := s;
                  end_date := calculated_end_date (fst j) (snd j) s |};
             f_days_supply := days_supply (fst j) |} ]
    | None => []
    end) (joined_with_median from to filter_drug_type T).

Record gaps_calculated_row := {
  c_fill : fill;
  next_start_date : option date;
  next_exposure_id : option Z;
  c_fill_sequence : Z;
  c_gap_days : Z
}.

(** gaps_detail and gaps_calculated for one partition. *)
Definition gaps_calculated (partition : list fill) : list gaps_calculated_row :=
  OVER (fun preceding fn =>
          let next := option_map (fun n => start_date (f_exposure n)) (snd fn) in
          let e := end_date (f_exposure (fst fn)) in
          {| c_fill := fst fn;
             next_start_date := next;
             next_exposure_id :=
               option_map (fun n => e_drug_exposure_id (f_exposure n)) (snd fn);
             c_fill_sequence := COUNT preceding + 1;
             c_gap_days := match next with
                           | Some n => if e <? n then DAYS_BETWEEN e n - 1 else 0
                           | None => 0
                           end |})
       [] (LEAD (ORDER_BY by_start partition)).

Definition get_detailed_gaps (from to : date) (min_gap_days : Z)
  (filter_drug_type : bool) (T : list DRUG_EXPOSURE) (C : list CONCEPT)
  : list gap_detail :=
  let cleaned := fills_cleaned from to filter_drug_type T in
  let calculated :=
    flat_map (fun k => gaps_calculated (fills_of k cleaned)) (fill_keys cleaned) in
  let joined :=
    LEFT_JOIN (fun g c => e_drug_concept_id (f_exposure (c_fill g)) =? concept_id c)
              calculated C in
  let selected :=
    flat_map (fun gc =>
      if min_gap_days <=? c_gap_days (fst gc)
      then
        let e := f_exposure (c_fill (fst gc)) in
        [ ({| gd_person_id := e_person_id e;
              gd_drug_concept_id := e_drug_concept_id e;
              gd_drug_name := name_of (snd gc);
              fill_sequence := c_fill_sequence (fst gc);
              fill_before_gap_date := start_date e;
              fill_before_gap_end_date := end_date e;
              gap_start_date := ADD_DAYS (end_date e) 1;
              gap_end_date :=
                option_map (fun n => ADD_DAYS n (-1)) (next_start_date (fst gc));
              gd_gap_days := c_gap_days (fst gc);
              gd_gap_severity := gap_severity (c_gap_days (fst gc));
              fill_after_gap_date := next_start_date (fst gc);
              days_supply_before_gap := f_days_supply (c_fill (fst gc)) |},
           snd gc) ]
      else []) joined in
  map fst (ORDER_BY by_person_drug_sequence selected).

(** *** get_drug_exposures *)

(** A row of get_drug_exposures: the columns of the source row (kept
    whole), start_date, the joined median and the three computed columns. *)
Record listing := {
  l_source : DRUG_EXPOSURE;
  l_start_date : date;
  median_days_supply : option Z;
  l_calculated_end_date : date;
  l_days_covered : Z;
  imputation_method : string
}.

(** CASE ... END AS days_covered. *)
Definition days_covered_of (de : DRUG_EXPOSURE) (dms : option (Z * Z)) (s : date) : Z :=
  match drug_exposure_end_date de with
  | Some e => DAYS_BETWEEN s e + 1
  | None =>
      match positive_value (days_supply de) with
      | Some d => d
      | None =>
          match positive_value (refills de) with
          | Some r => r * 30
          | None =>
              match dms with
              | Some m => snd m
              | None => 30
              end
          end
      end
  end.

(** CASE ... END AS imputation_method. *)
Definition imputation_method_of (de : DRUG_EXPOSURE) (dms : option (Z * Z)) : string :=
  if IS_NOT_NULL (drug_exposure_end_date de) then "actual_end_date"%string
  else if IS_NOT_NULL (positive_value (days_supply de)) then "days_supply"%string
  else if IS_NOT_NULL (positive_value (refills de)) then "refills"%string
  else if IS_NOT_NULL dms then "drug_median"%string
  else "default_30"%string.

(** ORDER BY person_id, drug_concept_id, drug_exposure_start_date. *)
Definition by_person_drug_start (a b : listing) : bool :=
  let x := l_source a in
  let y := l_source b in
  (person_id x <? person_id y)
  || ((person_id x =? person_id y)
      && ((drug_concept_id x <? drug_concept_id y)
          || ((drug_concept_id x =? drug_concept_id y)
              && (l_start_date a <=? l_start_date b)))).

Definition get_drug_exposures_query (from to : date) (filter_drug_type : bool)
  (T : list DRUG_EXPOSURE) : list listing :=
  ORDER_BY by_person_drug_start
    (flat_map (fun j =>
       match drug_exposure_start_date (fst j) with
       | Some s =>
           [ {| l_source := fst j;
                l_start_date := s;
                median_days_supply := option_map snd (snd j);
                l_calculated_end_date := calculated_end_date (fst j) (snd j) s;
                l_days_covered := days_covered_of (fst j) (snd j) s;
                imputation_method := imputation_method_of (fst j) (snd j) |} ]
       | None => []
       end) (joined_with_median from to filter_drug_type T)).

Definition get_drug_exposures (from to : date) (limit : option Z)
  (filter_drug_type : bool) (T : list DRUG_EXPOSURE) : option (list listing) :=
  execute_query (get_drug_exposures_query from to filter_drug_type T) limit.

End WithMedian.

End V3.

(** ** The merge pass as the specification words it

    A sequential scan that carries the current period [cs, ce] and the
    number of fills merged into it. *)

Record MergedPeriod := {
  mp_start : date;
  mp_end : date;
  num_fills_merged : Z;
  mp_days_covered : Z
}.

Fixpoint merge_pass (cs ce : date) (n : Z) (l : list (date * date))
  : list MergedPeriod :=
  match l with
  | [] =>
      [ {| mp_start := cs; mp_end := ce; num_fills_merged := n;
           mp_days_covered := ce - cs + 1 |} ]
  | (s, e) :: t =>
      if s <=? ce + 1
      then merge_pass cs (Z.max ce e) (n + 1) t
      else {| mp_start := cs; mp_end := ce; num_fills_merged := n;
              mp_days_covered := ce - cs + 1 |} :: merge_pass s e 1 t
  end.

Definition merge_sorted (l : list (date * date)) : list MergedPeriod :=
  match l with
  | [] => []
  | (s, e) :: t => merge_pass s e 1 t
  end.

Definition as_MergedPeriod (p : Fixed.merged_period) : MergedPeriod :=
  {| mp_start := Fixed.period_start p;
     mp_end := Fixed.period_end p;
     num_fills_merged := Fixed.num_fills p;
     mp_days_covered := Fixed.days_covered p |}.

(** The data-model invariant of a coverage interval. *)
Definition well_formed (r : date * date) : Prop := fst r <= snd r.

(** Two intervals overlap partially: the second starts inside the first
    and ends after it. *)
Definition partial_overlap (a b : date * date) : Prop :=
  fst a < fst b /\ fst b <= snd a /\ snd a < snd b.

(** The greatest end date of a frame extended by one row. *)
Definition extend_max (m : option Z) (y : Z) : Z :=
  match m with
  | Some v => Z.max v y
  | None => y
  end.

(** The window order as a property of a partition. *)
Definition ordered (l : list (date * date)) : Prop :=
  StronglySorted (fun a b => by_start_end a b = true) l.

(** coverage_groups as a scan: [m] is the greatest end date of the rows seen
    so far (NULL before the first row) and [g] the running sum of the flags. *)
Fixpoint annotate (m : option Z) (g : Z) (l : list (date * date))
  : list ((date * date) * Z) :=
  match l with
  | [] => []
  | r :: t =>
      let f := if fst r <=? COALESCE m (TO_DATE 1900 1 1) + 1 then 0 else 1 in
      (r, g + f) :: annotate (Some (extend_max m (snd r))) (g + f) t
  end.

(** The row merged_periods computes for the non-empty group [r :: rs] of
    coverage_groups rows. *)
Definition period_of (g : Z) (r : (date * date) * Z) (rs : list ((date * date) * Z))
  : Fixed.merged_period :=
  let ps := MIN1 (fst (fst r)) (map (fun x => fst (fst x)) rs) in
  let pe := MAX1 (snd (fst r)) (map (fun x => snd (fst x)) rs) in
  {| Fixed.coverage_group := g;
     Fixed.period_start := ps;
     Fixed.period_end := pe;
     Fixed.num_fills := COUNT (r :: rs);
     Fixed.days_covered := DAYS_BETWEEN ps pe + 1 |}.

(** The merge pass, producing the rows of merged_periods with their group
    numbers. *)
Fixpoint scan (g : Z) (cs ce : date) (n : Z) (l : list (date * date))
  : list Fixed.merged_period :=
  match l with
  | [] =>
      [ {| Fixed.coverage_group := g; Fixed.period_start := cs;
           Fixed.period_end := ce; Fixed.num_fills := n;
           Fixed.days_covered := DAYS_BETWEEN cs ce + 1 |} ]
  | (s, e) :: t =>
      if s <=? ce + 1
      then scan g cs (Z.max ce e) (n + 1) t
      else {| Fixed.coverage_group := g; Fixed.period_start := cs;
              Fixed.period_end := ce; Fixed.num_fills := n;
              Fixed.days_covered := DAYS_BETWEEN cs ce + 1 |} :: scan (g + 1) s e 1 t
  end.

(** The end of the last period the scan closes. *)
Fixpoint last_end (ce : date) (l : list (date * date)) : date :=
  match l with
  | [] => ce
  | (s, e) :: t => if s <=? ce + 1 then last_end (Z.max ce e) t else last_end e t
  end.

(** ** Sample data *)

Definition fill_with_end (p d i : Z) (s e : date) : DRUG_EXPOSURE :=
  {| person_id := p; drug_concept_id := d; drug_exposure_id := i;
     drug_exposure_start_date := Some s; drug_exposure_end_date := Some e;
     days_supply := None; refills := None; drug_type_concept_id := None |}.

Definition fill_with_supply (p d i : Z) (s : date) (n : Z) : DRUG_EXPOSURE :=
  {| person_id := p; drug_concept_id := d; drug_exposure_id := i;
     drug_exposure_start_date := Some s; drug_exposure_end_date := None;
     days_supply := Some n; refills := None; drug_type_concept_id := None |}.

Definition drug_concepts : list CONCEPT :=
  [ {| concept_id := 1000; concept_name := Some "metformin"%string;
       domain_id := "Drug"%string; concept_class_id := Some "Ingredient"%string |} ].

(** Two adjacent fills. *)
Definition adjacent_fills : list (date * date) :=
  [ (TO_DATE 2020 1 1, TO_DATE 2020 1 10); (TO_DATE 2020 1 11, TO_DATE 2020 1 20) ].

(** A 100-day fill that contains a short one, followed by a third fill that
    starts after the short one ended. *)
Definition contained_fills : list DRUG_EXPOSURE :=
  [ fill_with_end 1 1000 1 (TO_DATE 2020 1 1) (TO_DATE 2020 4 9);
    fill_with_end 1 1000 2 (TO_DATE 2020 1 10) (TO_DATE 2020 1 20);
    fill_with_end 1 1000 3 (TO_DATE 2020 1 25) (TO_DATE 2020 1 30) ].

(** A 90-day supply, a 7-day supply inside it and a 30-day supply that
    starts after the 7-day one ran out. *)
Definition stacked_supplies : list DRUG_EXPOSURE :=
  [ fill_with_supply 1 1000 1 (TO_DATE 2020 1 1) 90;
    fill_with_supply 1 1000 2 (TO_DATE 2020 1 5) 7;
    fill_with_supply 1 1000 3 (TO_DATE 2020 2 1) 30 ].

(** Four intervals: the second and third overlap partially, both inside the
    first; the fourth follows after a gap. *)
Definition overlapping_intervals : list (date * date) :=
  [ (TO_DATE 2020 1 1, TO_DATE 2020 4 9);
    (TO_DATE 2020 1 10, TO_DATE 2020 1 20);
    (TO_DATE 2020 1 15, TO_DATE 2020 1 30);
    (TO_DATE 2020 7 19, TO_DATE 2020 10 26) ].

(** Two fills five days apart. *)
Definition spaced_fills : list DRUG_EXPOSURE :=
  [ fill_with_end 1 1000 1 (TO_DATE 2020 1 1) (TO_DATE 2020 1 10);
    fill_with_end 1 1000 2 (TO_DATE 2020 1 15) (TO_DATE 2020 1 20) ].

(** ** The PDC ratio as the specification words it *)

(** [q] ten-thousandths is [num / den] rounded to four decimals: no other
    multiple of 0.0001 is nearer. *)
Definition rounded_to_4_decimals (q num den : Z) : Prop :=
  2 * Z.abs (10000 * num - q * den) <= den.

(** Clamped to [0, 1], in ten-thousandths. *)
Definition clamp01 (q : Z) : Z := Z.max 0 (Z.min 10000 q).




(** ** The fallback chain as the specification words it *)

(** The field is absent, or present but not positive. *)
Definition absent_or_not_positive (o : option Z) : Prop :=
  forall v, o = Some v -> v <= 0.

(** The drug-specific median: over the present, positive days_supply values
    of the records with the same drug, when there is one. *)
Definition drug_median (MEDIAN : list Z -> Z) (T : list DRUG_EXPOSURE) (d : Z)
  : option Z :=
  match V3.supplies_of d T with
  | [] => None
  | vs => Some (MEDIAN vs)
  end.



(** A record without a start date, otherwise complete. *)
Definition undated_fill : DRUG_EXPOSURE :=
  {| person_id := 1; drug_concept_id := 1000; drug_exposure_id := 4;
     drug_exposure_start_date := None;
     drug_exposure_end_date := Some (TO_DATE 2020 3 1);
     days_supply := Some 30; refills := None; drug_type_concept_id := None |}.

Definition has_start_date (de : DRUG_EXPOSURE) : bool :=
  IS_NOT_NULL (drug_exposure_start_date de).

(** The middle value of an odd number of day counts, their median. *)
Definition middle_value (l : list Z) : Z :=
  nth (Nat.div2 (length l)) (ORDER_BY Z.leb l) 0.

(** Three dated fills of one drug with 30, 60 and 90 days of supply, and a
    fourth whose days_supply is 0 and whose other fields are absent. *)
Definition zero_supply_fills : list DRUG_EXPOSURE :=
  [ fill_with_supply 1 1000 1 (TO_DATE 2020 1 1) 30;
    fill_with_supply 2 1000 2 (TO_DATE 2020 1 1) 60;
    fill_with_supply 3 1000 3 (TO_DATE 2020 1 1) 90;
    fill_with_supply 4 1000 4 (TO_DATE 2020 6 1) 0 ].

(** ** Further notions used by the properties *)

(** The coverage interval a row of get_drug_exposures shows. *)
Definition fixed_listing_interval (row : Fixed.listing) : exposure :=
  {| e_person_id := person_id (Fixed.l_source row);
     e_drug_concept_id := drug_concept_id (Fixed.l_source row);
     e_drug_exposure_id := drug_exposure_id (Fixed.l_source row);
     start_date := Fixed.l_start_date row;
     end_date := Fixed.l_calculated_end_date row |}.

Definition v3_listing_interval (row : V3.listing) : exposure :=
  {| e_person_id := person_id (V3.l_source row);
     e_drug_concept_id := drug_concept_id (V3.l_source row);
     e_drug_exposure_id := drug_exposure_id (V3.l_source row);
     start_date := V3.l_start_date row;
     end_date := V3.l_calculated_end_date row |}.

(** Day [d] lies in the interval, and in the merged period. *)
Definition covers (r : date * date) (d : date) : Prop := fst r <= d <= snd r.

Definition period_covers (p : Fixed.merged_period) (d : date) : Prop :=
  Fixed.period_start p <= d <= Fixed.period_end p.

(** exposure_with_gaps as a scan: [prev] is the end date of the row before
    (NULL on the first row) and [k] the number of rows before. *)
Fixpoint lag_rows (prev : option date) (k : Z) (l : list (date * date))
  : list V3.exposure_gap :=
  match l with
  | [] => []
  | (s, e) :: t =>
      {| V3.w_start_date := s;
         V3.w_end_date := e;
         V3.prev_end_date := prev;
         V3.fill_number := k + 1;
         V3.gap_days := match prev with
                        | Some p => if p <? s then DAYS_BETWEEN p s - 1 else 0
                        | None => 0
                        end;
         V3.overlap_days := match prev with
                            | Some p => if s <=? p then DAYS_BETWEEN s p else 0
                            | None => 0
                            end;
         V3.adjusted_days_covered :=
           match prev with
           | Some p =>
               if s <=? p
               then GREATEST 0 (DAYS_BETWEEN s e + 1 - DAYS_BETWEEN s p - 1)
               else DAYS_BETWEEN s e + 1
           | None => DAYS_BETWEEN s e + 1
           end |} :: lag_rows (Some e) (k + 1) t
  end.

(** No fill ends before the fill that precedes it in the window order. *)
Definition ends_ascend (l : list (date * date)) : Prop :=
  Sorted (fun a b => snd a <= snd b) l.

(** The key of a result row. *)
Definition fixed_row_key (row : Fixed.result_row) : Z * Z :=
  (Fixed.pr_person_id (Fixed.r_summary row), Fixed.pr_drug_concept_id (Fixed.r_summary row)).

(** Fills that follow one another without overlap, with a contained fill in
    the second sample. *)
Definition three_fills : list (date * date) :=
  [ (TO_DATE 2020 1 1, TO_DATE 2020 1 30);
    (TO_DATE 2020 1 20, TO_DATE 2020 2 10);
    (TO_DATE 2020 3 1, TO_DATE 2020 3 30) ].

(** * Properties *)

(** ** Aggregates and window frames *)

Lemma SUM_app (l1 l2 : list Z) : SUM (l1 ++ l2) = SUM l1 + SUM l2.
Proof.
  unfold SUM. induction l1 as [|x l1 IH]; simpl; [reflexivity | rewrite IH; lia].
Qed.

Lemma MAX1_snoc (x : Z) (t : list Z) (y : Z) :
  MAX1 x (t ++ [y]) = Z.max (MAX1 x t) y.
Proof. unfold MAX1. rewrite fold_left_app. reflexivity. Qed.

Lemma MIN1_snoc (x : Z) (t : list Z) (y : Z) :
  MIN1 x (t ++ [y]) = Z.min (MIN1 x t) y.
Proof. unfold MIN1. rewrite fold_left_app. reflexivity. Qed.

Lemma MAX1_ge_init (t : list Z) (x : Z) : x <= MAX1 x t.
Proof.
  unfold MAX1. revert x. induction t as [|y t IH]; intro x; simpl; [lia|].
  specialize (IH (Z.max x y)). lia.
Qed.

Lemma MAX1_ge (t : list Z) (x y : Z) : In y t -> y <= MAX1 x t.
Proof.
  unfold MAX1. revert x. induction t as [|z t IH]; intros x Hin; simpl in *; [tauto|].
  destruct Hin as [->|Hin].
  - pose proof (MAX1_ge_init t (Z.max x y)) as H. unfold MAX1 in H. lia.
  - apply IH, Hin.
Qed.

Lemma MAX1_mono (t : list Z) (x y : Z) : x <= y -> MAX1 x t <= MAX1 y t.
Proof.
  unfold MAX1. revert x y. induction t as [|z t IH]; intros x y H; simpl; [lia|].
  apply IH. lia.
Qed.

Lemma MIN1_le_init (t : list Z) (x : Z) : MIN1 x t <= x.
Proof.
  unfold MIN1. revert x. induction t as [|y t IH]; intro x; simpl; [lia|].
  specialize (IH (Z.min x y)). lia.
Qed.

Lemma MIN1_lower (t : list Z) (x : Z) :
  (forall y, In y t -> x <= y) -> MIN1 x t = x.
Proof.
  unfold MIN1. revert x. induction t as [|z t IH]; intros x H; simpl; [reflexivity|].
  assert (x <= z) by (apply H; left; reflexivity).
  replace (Z.min x z) with x by lia.
  apply IH. intros y Hy. apply H. right. exact Hy.
Qed.

Lemma MAX_snoc (l : list Z) (y : Z) : MAX (l ++ [y]) = Some (extend_max (MAX l) y).
Proof.
  destruct l as [|x t]; simpl; [reflexivity|].
  rewrite fold_left_app. reflexivity.
Qed.

(** ** ORDER BY sorts, and the sorted list is determined by the multiset *)

Section OrderByFacts.
Context {A : Type} (leb : A -> A -> bool).
Hypothesis leb_total : forall a b, leb a b = true \/ leb b a = true.
Hypothesis leb_trans : forall a b c, leb a b = true -> leb b c = true -> leb a c = true.

Let le (a b : A) : Prop := leb a b = true.

Lemma insert_perm (x : A) (l : list A) : Permutation (x :: l) (insert leb x l).
Proof.
  induction l as [|y t IH]; simpl; [apply Permutation_refl|].
  destruct (leb x y); [apply Permutation_refl|].
  eapply perm_trans; [apply perm_swap|]. apply perm_skip, IH.
Qed.

Lemma ORDER_BY_perm (l : list A) : Permutation l (ORDER_BY leb l).
Proof.
  induction l as [|x t IH]; simpl; [apply perm_nil|].
  eapply perm_trans; [apply perm_skip, IH | apply insert_perm].
Qed.

Lemma insert_sorted (x : A) (l : list A) :
  StronglySorted le l -> StronglySorted le (insert leb x l).
Proof.
  induction 1 as [|y t Hs IH Hall]; simpl.
  - constructor; constructor.
  - destruct (leb x y) eqn:E.
    + constructor; [constructor; assumption|].
      constructor; [exact E|].
      eapply Forall_impl; [|exact Hall].
      intros z Hz. exact (leb_trans _ _ _ E Hz).
    + constructor; [exact IH|].
      assert (Hyx : le y x) by (destruct (leb_total x y); [congruence | assumption]).
      eapply Permutation_Forall; [apply insert_perm|].
      constructor; assumption.
Qed.

Lemma ORDER_BY_sorted (l : list A) : StronglySorted le (ORDER_BY leb l).
Proof.
  induction l as [|x t IH]; simpl; [constructor | apply insert_sorted, IH].
Qed.

Lemma ORDER_BY_of_sorted (l : list A) : StronglySorted le l -> ORDER_BY leb l = l.
Proof.
  induction 1 as [|x t Hs IH Hall]; simpl; [reflexivity|].
  rewrite IH. destruct t as [|y t']; simpl; [reflexivity|].
  inversion Hall as [|? ? Hxy _]; subst. unfold le in Hxy. rewrite Hxy. reflexivity.
Qed.

Hypothesis leb_antisym : forall a b, leb a b = true -> leb b a = true -> a = b.

Lemma sorted_perm_unique (l1 l2 : list A) :
  StronglySorted le l1 -> StronglySorted le l2 -> Permutation l1 l2 -> l1 = l2.
Proof.
  intros H1. revert l2. induction H1 as [|a t1 Hs1 IH Hall1]; intros l2 H2 HP.
  - apply Permutation_nil in HP. congruence.
  - destruct H2 as [|b t2 Hs2 Hall2].
    + apply Permutation_sym, Permutation_nil in HP. discriminate.
    + assert (Hab : a = b).
      { assert (Ha : In a (b :: t2)) by (eapply Permutation_in; [exact HP | left; reflexivity]).
        assert (Hb : In b (a :: t1))
          by (eapply Permutation_in; [apply Permutation_sym, HP | left; reflexivity]).
        destruct Ha as [Ha|Ha]; [congruence|].
        destruct Hb as [Hb|Hb]; [congruence|].
        rewrite Forall_forall in Hall1, Hall2.
        apply leb_antisym; [apply Hall1, Hb | apply Hall2, Ha]. }
      subst b. f_equal. apply IH; [exact Hs2|].
      eapply Permutation_cons_inv, HP.
Qed.

Lemma ORDER_BY_permutation (l1 l2 : list A) :
  Permutation l1 l2 -> ORDER_BY leb l1 = ORDER_BY leb l2.
Proof.
  intro HP. apply sorted_perm_unique; try apply ORDER_BY_sorted.
  eapply perm_trans; [apply Permutation_sym, ORDER_BY_perm|].
  eapply perm_trans; [exact HP | apply ORDER_BY_perm].
Qed.
End OrderByFacts.

Lemma by_start_end_total (a b : date * date) :
  by_start_end a b = true \/ by_start_end b a = true.
Proof. unfold by_start_end. destruct a, b; simpl. lia. Qed.

Lemma by_start_end_trans (a b c : date * date) :
  by_start_end a b = true -> by_start_end b c = true -> by_start_end a c = true.
Proof. unfold by_start_end. destruct a, b, c; simpl. lia. Qed.

Lemma by_start_end_antisym (a b : date * date) :
  by_start_end a b = true -> by_start_end b a = true -> a = b.
Proof.
  unfold by_start_end. destruct a, b; simpl. intros H1 H2.
  f_equal; lia.
Qed.

Lemma by_start_end_fst (a b : date * date) : by_start_end a b = true -> fst a <= fst b.
Proof. unfold by_start_end. lia. Qed.

Lemma ordered_ORDER_BY (l : list (date * date)) : ordered (ORDER_BY by_start_end l).
Proof. apply ORDER_BY_sorted; [apply by_start_end_total | apply by_start_end_trans]. Qed.

Lemma ordered_tail (r : date * date) (t : list (date * date)) :
  ordered (r :: t) -> ordered t /\ forall y, In y t -> fst r <= fst y.
Proof.
  intro H. inversion H as [|? ? Hs Hall]; subst. split; [exact Hs|].
  rewrite Forall_forall in Hall. intros y Hy. apply by_start_end_fst, Hall, Hy.
Qed.

(** ** coverage_groups and merged_periods as a scan *)

Lemma coverage_groups_annotate (rows preceding : list (date * date)) (flags : list Z) :
  combine rows
    (OVER (fun p f => SUM (p ++ [f])) flags (OVER Fixed.starts_new_group preceding rows))
  = annotate (MAX (map snd preceding)) (SUM flags) rows.
Proof.
  revert preceding flags.
  induction rows as [|r t IH]; intros preceding flags; [reflexivity|].
  cbn [OVER combine annotate].
  rewrite IH, SUM_app, map_app. cbn [map]. rewrite MAX_snoc.
  assert (Hone : forall z, SUM [z] = z) by (intro z; unfold SUM; simpl; lia).
  rewrite Hone. reflexivity.
Qed.

Lemma annotate_group_ge (l : list (date * date)) (m : option Z) (g : Z) :
  forall y, In y (annotate m g l) -> g <= snd y.
Proof.
  revert m g. induction l as [|r t IH]; intros m g y Hy; simpl in Hy; [tauto|].
  destruct Hy as [<-|Hy].
  - simpl. destruct (fst r <=? _); lia.
  - apply IH in Hy. destruct (fst r <=? _); lia.
Qed.

Lemma nodup_block (g : Z) (xs ys : list Z) :
  xs <> [] -> (forall x, In x xs -> x = g) -> ~ In g ys ->
  DISTINCT (xs ++ ys) = g :: DISTINCT ys.
Proof.
  unfold DISTINCT. induction xs as [|x t IH]; intros Hne Hall Hnot; [congruence|].
  assert (x = g) by (apply Hall; left; reflexivity). subst x.
  simpl. destruct t as [|x' t'].
  - simpl. destruct (in_dec Z.eq_dec g ys); [contradiction | reflexivity].
  - destruct (in_dec Z.eq_dec g ((x' :: t') ++ ys)) as [_|Hn].
    + apply IH; [discriminate | | exact Hnot].
      intros x Hx. apply Hall. right. exact Hx.
    + exfalso. apply Hn. left. apply Hall. right. left. reflexivity.
Qed.

Lemma flat_map_ext_In {A B} (f g : A -> list B) (l : list A) :
  (forall a, In a l -> f a = g a) -> flat_map f l = flat_map g l.
Proof.
  induction l as [|a t IH]; intro H; simpl; [reflexivity|].
  rewrite H by (left; reflexivity). f_equal. apply IH.
  intros b Hb. apply H. right. exact Hb.
Qed.

Lemma filter_all {A} (f : A -> bool) (l : list A) :
  (forall x, In x l -> f x = true) -> filter f l = l.
Proof.
  induction l as [|a t IH]; intro H; simpl; [reflexivity|].
  rewrite H by (left; reflexivity). f_equal. apply IH.
  intros b Hb. apply H. right. exact Hb.
Qed.

Lemma filter_none {A} (f : A -> bool) (l : list A) :
  (forall x, In x l -> f x = false) -> filter f l = [].
Proof.
  induction l as [|a t IH]; intro H; simpl; [reflexivity|].
  rewrite H by (left; reflexivity). apply IH.
  intros b Hb. apply H. right. exact Hb.
Qed.

(** GROUP BY on a leading block of rows that share a group number no later
    row has. *)
Lemma merged_periods_block (g : Z) (r : (date * date) * Z)
  (rs ys : list ((date * date) * Z)) :
  (forall x, In x (r :: rs) -> snd x = g) ->
  (forall y, In y ys -> snd y <> g) ->
  Fixed.merged_periods ((r :: rs) ++ ys) = period_of g r rs :: Fixed.merged_periods ys.
Proof.
  intros HX HY. unfold Fixed.merged_periods.
  rewrite map_app, (nodup_block g).
  - cbn [flat_map]. rewrite filter_app.
    rewrite (filter_all _ (r :: rs)), (filter_none _ ys), app_nil_r.
    + cbn [app]. f_equal. apply flat_map_ext_In.
      intros k Hk. cbv beta. change (r :: rs ++ ys) with ((r :: rs) ++ ys).
      rewrite filter_app, (filter_none _ (r :: rs)); [reflexivity|].
      intros x Hx. apply HX in Hx. apply Z.eqb_neq.
      apply nodup_In, in_map_iff in Hk. destruct Hk as [y [Hy Hin]].
      apply HY in Hin. congruence.
    + intros y Hy. apply Z.eqb_neq. apply HY, Hy.
    + intros x Hx. apply Z.eqb_eq. apply HX, Hx.
  - discriminate.
  - intros x Hx. apply in_map_iff in Hx. destruct Hx as [y [<- Hy]]. apply HX, Hy.
  - intro Hin. apply in_map_iff in Hin. destruct Hin as [y [Hy Hin]].
    apply HY in Hin. congruence.
Qed.

(** The rows of the current group [r :: rs], numbered [g], followed by the
    annotation of the rows still to come, group as the scan does.  [m] is
    the greatest end date so far; a later start is within a day of it
    exactly when it is within a day of the current period's end. *)
Lemma merged_periods_scan (t : list (date * date)) :
  forall (r : (date * date) * Z) (rs : list ((date * date) * Z)) (m g : Z),
    (forall x, In x (r :: rs) -> snd x = g) ->
    ordered t ->
    (forall y, In y t ->
       MIN1 (fst (fst r)) (map (fun x => fst (fst x)) rs) <= fst y) ->
    (forall y, In y t ->
       (fst y <= m + 1 <->
        fst y <= MAX1 (snd (fst r)) (map (fun x => snd (fst x)) rs) + 1)) ->
    Fixed.merged_periods ((r :: rs) ++ annotate (Some m) g t)
    = scan g (MIN1 (fst (fst r)) (map (fun x => fst (fst x)) rs))
             (MAX1 (snd (fst r)) (map (fun x => snd (fst x)) rs))
             (COUNT (r :: rs)) t.
Proof.
  induction t as [|[s e] t IH]; intros r rs m g HX Hord Hcs Hinv.
  - simpl annotate. rewrite (merged_periods_block g); [|exact HX|intros y []].
    reflexivity.
  - apply ordered_tail in Hord. destruct Hord as [Hord Hle]. simpl in Hle.
    pose proof (Hinv (s, e) (or_introl eq_refl)) as Hse. simpl in Hse.
    pose proof (Hcs (s, e) (or_introl eq_refl)) as Hcse. simpl in Hcse.
    cbn [annotate scan COALESCE fst snd extend_max].
    destruct (s <=? m + 1) eqn:E1.
    + apply Z.leb_le in E1.
      replace (s <=? MAX1 (snd (fst r)) (map (fun x => snd (fst x)) rs) + 1) with true
        by (symmetry; apply Z.leb_le; tauto).
      rewrite Z.add_0_r.
      change ((r :: rs) ++ ((s, e), g) :: annotate (Some (Z.max m e)) g t)
        with ((r :: rs) ++ [((s, e), g)] ++ annotate (Some (Z.max m e)) g t).
      rewrite app_assoc. change ((r :: rs) ++ [((s, e), g)]) with (r :: (rs ++ [((s, e), g)])).
      rewrite IH.
      * rewrite !map_app. cbn [map fst snd]. rewrite MIN1_snoc, MAX1_snoc.
        replace (Z.min (MIN1 (fst (fst r)) (map (fun x => fst (fst x)) rs)) s)
          with (MIN1 (fst (fst r)) (map (fun x => fst (fst x)) rs)) by lia.
        f_equal. unfold COUNT. cbn [length]. rewrite length_app. cbn [length]. lia.
      * intros x Hx. change (r :: rs ++ [((s, e), g)]) with ((r :: rs) ++ [((s, e), g)]) in Hx.
        apply in_app_or in Hx. destruct Hx as [Hx|[<-|[]]]; [apply HX, Hx | reflexivity].
      * exact Hord.
      * intros y Hy. rewrite map_app. cbn [map fst snd]. rewrite MIN1_snoc.
        specialize (Hcs y (or_intror Hy)). lia.
      * intros y Hy. rewrite map_app. cbn [map fst snd]. rewrite MAX1_snoc.
        specialize (Hinv y (or_intror Hy)). lia.
    + apply Z.leb_gt in E1.
      replace (s <=? MAX1 (snd (fst r)) (map (fun x => snd (fst x)) rs) + 1) with false
        by (symmetry; apply Z.leb_gt; lia).
      rewrite (merged_periods_block g); [|exact HX|].
      * f_equal.
        change (((s, e), g + 1) :: annotate (Some (Z.max m e)) (g + 1) t)
          with ([((s, e), g + 1)] ++ annotate (Some (Z.max m e)) (g + 1) t).
        rewrite IH; [reflexivity| | exact Hord | |].
        -- intros x [<-|[]]. reflexivity.
        -- intros y Hy. cbn. apply Hle, Hy.
        -- intros y Hy. cbn. specialize (Hle y Hy). lia.
      * intros y [<-|Hy]; [simpl; lia|].
        apply annotate_group_ge in Hy. lia.
Qed.

(** merged_periods of coverage_groups is the scan of the ordered rows. *)
Lemma merged_periods_coverage_groups (l : list (date * date)) :
  Fixed.merged_periods (Fixed.coverage_groups l)
  = match ORDER_BY by_start_end l with
    | [] => []
    | (s, e) :: t =>
        scan (if s <=? TO_DATE 1900 1 1 + 1 then 0 else 1) s e 1 t
    end.
Proof.
  unfold Fixed.coverage_groups.
  pose proof (ordered_ORDER_BY l) as Hord.
  rewrite coverage_groups_annotate. cbn [map MAX SUM fold_right].
  destruct (ORDER_BY by_start_end l) as [|[s e] t]; [reflexivity|].
  apply ordered_tail in Hord. destruct Hord as [Hord Hle]. simpl in Hle.
  cbn [annotate COALESCE fst snd extend_max]. rewrite Z.add_0_l.
  set (g := if s <=? TO_DATE 1900 1 1 + 1 then 0 else 1).
  change (((s, e), g) :: annotate (Some e) g t) with ([((s, e), g)] ++ annotate (Some e) g t).
  rewrite merged_periods_scan; [reflexivity| | exact Hord | |].
  - intros x [<-|[]]. reflexivity.
  - intros y Hy. cbn. apply Hle, Hy.
  - intros y Hy. cbn. tauto.
Qed.

Lemma scan_merge_pass (l : list (date * date)) (g : Z) (cs ce : date) (n : Z) :
  map as_MergedPeriod (scan g cs ce n l) = merge_pass cs ce n l.
Proof.
  revert g cs ce n. induction l as [|[s e] t IH]; intros g cs ce n; simpl; [reflexivity|].
  destruct (s <=? ce + 1); simpl; rewrite IH; reflexivity.
Qed.

(** ** What the scan produces *)

Lemma LEAD_fst {A} (l : list A) : map fst (LEAD l) = l.
Proof. induction l as [|x t IH]; simpl; [reflexivity | rewrite IH; reflexivity]. Qed.

Lemma scan_head (t : list (date * date)) (g : Z) (cs ce : date) (n : Z) :
  exists p rest, scan g cs ce n t = p :: rest /\ Fixed.period_start p = cs.
Proof.
  revert g cs ce n. induction t as [|[s e] t IH]; intros g cs ce n; simpl.
  - eexists; eexists; split; reflexivity.
  - destruct (s <=? ce + 1); [apply IH|].
    eexists; eexists; split; reflexivity.
Qed.

Lemma scan_sorted (t : list (date * date)) (g : Z) (cs ce : date) (n : Z) :
  ordered t -> (forall y, In y t -> cs <= fst y) ->
  StronglySorted (fun a b => Fixed.by_period_start a b = true) (scan g cs ce n t)
  /\ Forall (fun p => cs <= Fixed.period_start p) (scan g cs ce n t).
Proof.
  revert g cs ce n. induction t as [|[s e] t IH]; intros g cs ce n Hord Hcs; simpl.
  - split; repeat constructor. simpl. lia.
  - apply ordered_tail in Hord. destruct Hord as [Hord Hle]. simpl in Hle.
    assert (Hs : cs <= s) by (apply (Hcs (s, e)); left; reflexivity).
    destruct (s <=? ce + 1).
    + apply IH; [exact Hord|]. intros y Hy. apply Hcs. right. exact Hy.
    + destruct (IH (g + 1) s e 1 Hord Hle) as [Hss Hall].
      assert (Hall' : Forall (fun p => cs <= Fixed.period_start p) (scan (g + 1) s e 1 t)).
      { eapply Forall_impl; [|exact Hall]. simpl. intros p Hp. lia. }
      split.
      * constructor; [exact Hss|].
        eapply Forall_impl; [|exact Hall']. intros p Hp.
        unfold Fixed.by_period_start. simpl. apply Z.leb_le. exact Hp.
      * constructor; [simpl; lia | exact Hall'].
Qed.

Lemma gaps_of_scan (t : list (date * date)) (g : Z) (cs ce : date) (n : Z) :
  ordered t -> (forall y, In y t -> cs <= fst y) ->
  Fixed.gaps (scan g cs ce n t) = map Fixed.gap_to_next (LEAD (scan g cs ce n t)).
Proof.
  intros Hord Hcs. unfold Fixed.gaps. rewrite ORDER_BY_of_sorted; [reflexivity|].
  apply scan_sorted; assumption.
Qed.

(** Covered days and gap days telescope to the span of the periods. *)
Lemma scan_partition (t : list (date * date)) (g : Z) (cs ce : date) (n : Z) :
  SUM (map Fixed.days_covered (scan g cs ce n t))
  + SUM (map Fixed.gap_days (map Fixed.gap_to_next (LEAD (scan g cs ce n t))))
  = last_end ce t - cs + 1.
Proof.
  revert g cs ce n. induction t as [|[s e] t IH]; intros g cs ce n; simpl.
  - unfold SUM, DAYS_BETWEEN. simpl. lia.
  - destruct (s <=? ce + 1) eqn:E; [apply IH|].
    specialize (IH (g + 1) s e 1).
    destruct (scan_head t (g + 1) s e 1) as [p [rest [Hp Hps]]].
    rewrite Hp in *. cbn [LEAD map hd_error] in *.
    unfold SUM in *. cbn [fold_right] in *.
    unfold Fixed.gap_to_next at 1. cbn [Fixed.gap_days fst snd Fixed.days_covered Fixed.period_end].
    unfold DAYS_BETWEEN in *. lia.
Qed.

Lemma scan_gaps_positive (t : list (date * date)) (g : Z) (cs ce : date) (n : Z) :
  Forall (fun x => 0 <= Fixed.gap_days x)
         (map Fixed.gap_to_next (LEAD (scan g cs ce n t))).
Proof.
  revert g cs ce n. induction t as [|[s e] t IH]; intros g cs ce n; simpl.
  - repeat constructor. simpl. lia.
  - destruct (s <=? ce + 1) eqn:E; [apply IH|].
    apply Z.leb_gt in E. constructor; [|apply IH].
    destruct (scan_head t (g + 1) s e 1) as [p [rest [Hp Hps]]].
    rewrite Hp. unfold Fixed.gap_to_next, DAYS_BETWEEN. simpl. lia.
Qed.

Lemma SUM_nonneg (l : list Z) : Forall (fun x => 0 <= x) l -> 0 <= SUM l.
Proof.
  unfold SUM. induction 1 as [|x t Hx _ IH]; simpl; lia.
Qed.

Lemma scan_last_end_in (t : list (date * date)) (g : Z) (cs ce : date) (n : Z) :
  In (last_end ce t) (map Fixed.period_end (scan g cs ce n t)).
Proof.
  revert g cs ce n. induction t as [|[s e] t IH]; intros g cs ce n; simpl.
  - left. reflexivity.
  - destruct (s <=? ce + 1); [apply IH|]. right. apply IH.
Qed.

Lemma last_end_ge (t : list (date * date)) (ce : date) :
  Forall well_formed t -> ce <= last_end ce t.
Proof.
  revert ce. induction t as [|[s e] t IH]; intros ce Hwf; simpl; [lia|].
  inversion Hwf as [|? ? Hse Hwf']; subst. unfold well_formed in Hse. simpl in Hse.
  destruct (s <=? ce + 1) eqn:E.
  - specialize (IH (Z.max ce e) Hwf'). lia.
  - apply Z.leb_gt in E. specialize (IH e Hwf'). lia.
Qed.

Lemma scan_ends_bounded (t : list (date * date)) (g : Z) (cs ce : date) (n : Z) :
  Forall well_formed t ->
  Forall (fun p => Fixed.period_end p <= last_end ce t) (scan g cs ce n t).
Proof.
  revert g cs ce n. induction t as [|[s e] t IH]; intros g cs ce n Hwf; simpl.
  - repeat constructor. simpl. lia.
  - inversion Hwf as [|? ? Hse Hwf']; subst. unfold well_formed in Hse. simpl in Hse.
    destruct (s <=? ce + 1) eqn:E; [apply IH, Hwf'|].
    apply Z.leb_gt in E. constructor; [|apply IH, Hwf'].
    simpl. pose proof (last_end_ge t e Hwf'). lia.
Qed.

Lemma MAX1_le (t : list Z) (x b : Z) :
  x <= b -> (forall y, In y t -> y <= b) -> MAX1 x t <= b.
Proof.
  unfold MAX1. revert x. induction t as [|z t IH]; intros x Hx H; simpl; [exact Hx|].
  apply IH.
  - assert (z <= b) by (apply H; left; reflexivity). lia.
  - intros y Hy. apply H. right. exact Hy.
Qed.

Lemma MAX1_greatest (t : list Z) (x b : Z) :
  In b (x :: t) -> (forall y, In y (x :: t) -> y <= b) -> MAX1 x t = b.
Proof.
  intros Hin Hub. apply Z.le_antisymm.
  - apply MAX1_le; [apply Hub; left; reflexivity|].
    intros y Hy. apply Hub. right. exact Hy.
  - destruct Hin as [<-|Hin]; [apply MAX1_ge_init | apply MAX1_ge, Hin].
Qed.

(** ** The summary row of the merge-then-measure variant *)

Lemma map_over_gaps {B} (f : Fixed.merged_period -> B) (P : list Fixed.merged_period) :
  map (fun x => f (Fixed.g_period x)) (map Fixed.gap_to_next (LEAD P)) = map f P.
Proof.
  rewrite map_map. rewrite <- (LEAD_fst P) at 2. rewrite map_map. reflexivity.
Qed.

Lemma patient_drug_pdc_row_periods (k : Z * Z) (p : Fixed.merged_period)
  (rest : list Fixed.merged_period) :
  exists r,
    Fixed.patient_drug_pdc_row k (map Fixed.gap_to_next (LEAD (p :: rest))) = Some r
    /\ Fixed.total_days_covered r = SUM (map Fixed.days_covered (p :: rest))
    /\ Fixed.total_gap_days r
       = SUM (map Fixed.gap_days (map Fixed.gap_to_next (LEAD (p :: rest))))
    /\ Fixed.first_exposure_date r
       = MIN1 (Fixed.period_start p) (map Fixed.period_start rest)
    /\ Fixed.last_exposure_date r
       = MAX1 (Fixed.period_end p) (map Fixed.period_end rest)
    /\ Fixed.num_periods r = COUNT (p :: rest)
    /\ Fixed.total_fills r = SUM (map Fixed.num_fills (p :: rest)).
Proof.
  pose proof (map_over_gaps Fixed.days_covered (p :: rest)) as Hd.
  pose proof (map_over_gaps Fixed.num_fills (p :: rest)) as Hn.
  pose proof (map_over_gaps Fixed.period_start rest) as Hs.
  pose proof (map_over_gaps Fixed.period_end rest) as He.
  cbn [LEAD map] in *. unfold Fixed.patient_drug_pdc_row.
  eexists. split; [reflexivity|].
  cbn [Fixed.total_days_covered Fixed.total_gap_days Fixed.first_exposure_date
       Fixed.last_exposure_date Fixed.num_periods Fixed.total_fills].
  rewrite Hs, He.
  change (Fixed.g_period (Fixed.gap_to_next (p, hd_error rest))) with p in *.
  repeat split; try reflexivity.
  - cbn [map]. change (Fixed.g_period (Fixed.gap_to_next (p, hd_error rest))) with p.
    unfold SUM in *. cbn [fold_right]. f_equal.
    injection Hd as Hd. rewrite Hd. reflexivity.
  - unfold COUNT. cbn [length]. rewrite length_map.
    rewrite <- (LEAD_fst rest) at 2. rewrite length_map. reflexivity.
  - cbn [map]. change (Fixed.g_period (Fixed.gap_to_next (p, hd_error rest))) with p.
    unfold SUM in *. cbn [fold_right]. f_equal.
    injection Hn as Hn. rewrite Hn. reflexivity.
Qed.

Lemma patient_drug_pdc_row_shape (k : Z * Z) (gs : list Fixed.gap_row) (r : Fixed.pdc_row) :
  Fixed.patient_drug_pdc_row k gs = Some r ->
  Fixed.pr_person_id r = fst k
  /\ Fixed.pr_drug_concept_id r = snd k
  /\ Fixed.treatment_duration r
     = DAYS_BETWEEN (Fixed.first_exposure_date r) (Fixed.last_exposure_date r) + 1
  /\ Fixed.pdc r = (if 0 <? Fixed.treatment_duration r
                    then ROUND4_div (Fixed.total_days_covered r) (Fixed.treatment_duration r)
                    else 0).
Proof.
  destruct gs as [|g t]; simpl; [discriminate|].
  intro H. injection H as <-. simpl. repeat split; reflexivity.
Qed.

Lemma ORDER_BY_nonempty (l : list (date * date)) :
  l <> [] -> exists s e t, ORDER_BY by_start_end l = (s, e) :: t.
Proof.
  intro Hne. destruct (ORDER_BY by_start_end l) as [|[s e] t] eqn:E.
  - exfalso. apply Hne. apply Permutation_nil.
    rewrite <- E. apply Permutation_sym, ORDER_BY_perm.
  - eauto.
Qed.

(** The summary of a group in terms of its ordered intervals. *)
Lemma fixed_aggregate_ordered (k : Z * Z) (l : list (date * date))
  (s e : date) (t : list (date * date)) :
  ORDER_BY by_start_end l = (s, e) :: t ->
  exists r,
    Fixed.aggregate k l = Some r
    /\ Fixed.total_days_covered r + Fixed.total_gap_days r = last_end e t - s + 1
    /\ 0 <= Fixed.total_gap_days r
    /\ Fixed.first_exposure_date r = s
    /\ last_end e t <= Fixed.last_exposure_date r
    /\ (Forall well_formed l -> Fixed.last_exposure_date r = last_end e t).
Proof.
  intro Hl. unfold Fixed.aggregate.
  pose proof (ordered_ORDER_BY l) as Hord. rewrite Hl in Hord.
  apply ordered_tail in Hord. destruct Hord as [Hord Hle]. simpl in Hle.
  rewrite merged_periods_coverage_groups, Hl.
  set (g := if s <=? TO_DATE 1900 1 1 + 1 then 0 else 1).
  rewrite (gaps_of_scan t g s e 1 Hord Hle).
  pose proof (scan_partition t g s e 1) as Hpart.
  pose proof (scan_gaps_positive t g s e 1) as Hpos.
  pose proof (scan_last_end_in t g s e 1) as Hin.
  pose proof (scan_ends_bounded t g s e 1) as Hub.
  destruct (scan_sorted t g s e 1 Hord Hle) as [_ Hlow].
  destruct (scan_head t g s e 1) as [p [rest [Hp Hps]]].
  rewrite Hp in *.
  destruct (patient_drug_pdc_row_periods k p rest)
    as [r [Hr [Hcov [Hgap [Hfirst [Hlast _]]]]]].
  exists r. split; [exact Hr|].
  rewrite Hcov, Hgap, Hfirst, Hlast.
  split; [exact Hpart|]. split.
  - apply SUM_nonneg. rewrite Forall_forall in *.
    intros x Hx. apply in_map_iff in Hx. destruct Hx as [y [<- Hy]]. apply Hpos, Hy.
  - split.
    + rewrite MIN1_lower; [exact Hps|].
      apply Forall_inv_tail in Hlow. rewrite Forall_forall in Hlow.
      intros y Hy. apply in_map_iff in Hy. destruct Hy as [q [<- Hq]].
      rewrite Hps. apply Hlow, Hq.
    + split.
      * cbn [map] in Hin. destruct Hin as [<-|Hin]; [apply MAX1_ge_init | apply MAX1_ge, Hin].
      * intro Hwf. apply MAX1_greatest; [exact Hin|].
        assert (Hwft : Forall well_formed t).
        { assert (Hall : Forall well_formed ((s, e) :: t)).
          { rewrite <- Hl. eapply Permutation_Forall; [apply ORDER_BY_perm | exact Hwf]. }
          inversion Hall; assumption. }
        specialize (Hub Hwft). rewrite Forall_forall in Hub.
        intros y Hy. change (Fixed.period_end p :: map Fixed.period_end rest)
          with (map Fixed.period_end (p :: rest)) in Hy.
        apply in_map_iff in Hy. destruct Hy as [q [<- Hq]]. apply Hub, Hq.
Qed.

(** In the merge-then-measure variant, covered days and gap days partition
    the treatment span of a group of well-formed intervals. *)
Lemma fixed_coverage_partition (k : Z * Z) (l : list (date * date)) (r : Fixed.pdc_row) :
  Forall well_formed l ->
  Fixed.aggregate k l = Some r ->
  Fixed.total_gap_days r + Fixed.total_days_covered r = Fixed.treatment_duration r.
Proof.
  intros Hwf Hr.
  destruct l as [|x l']; [discriminate|].
  destruct (ORDER_BY_nonempty (x :: l')) as [s [e [t Hl]]]; [discriminate|].
  destruct (fixed_aggregate_ordered k _ s e t Hl) as [r' [Hr' [Hsum [_ [Hf [_ Hlast]]]]]].
  rewrite Hr in Hr'. injection Hr' as <-.
  apply patient_drug_pdc_row_shape in Hr. destruct Hr as [_ [_ [Htd _]]].
  rewrite Htd, Hf, (Hlast Hwf). unfold DAYS_BETWEEN. lia.
Qed.

(** In the merge-then-measure variant the covered days never exceed the
    treatment span. *)
Lemma fixed_coverage_bounded (k : Z * Z) (l : list (date * date)) (r : Fixed.pdc_row) :
  Fixed.aggregate k l = Some r ->
  Fixed.total_days_covered r <= Fixed.treatment_duration r.
Proof.
  intros Hr.
  destruct l as [|x l']; [discriminate|].
  destruct (ORDER_BY_nonempty (x :: l')) as [s [e [t Hl]]]; [discriminate|].
  destruct (fixed_aggregate_ordered k _ s e t Hl) as [r' [Hr' [Hsum [Hpos [Hf [Hlast _]]]]]].
  rewrite Hr in Hr'. injection Hr' as <-.
  apply patient_drug_pdc_row_shape in Hr. destruct Hr as [_ [_ [Htd _]]].
  rewrite Htd, Hf. unfold DAYS_BETWEEN. lia.
Qed.

(** ** The claims about the Coverage Aggregator *)

(** C3: on the rows of one group in (start_date, end_date) order, the
    periods that coverage_groups and merged_periods compute are those of the
    merge pass, which keeps a current period [cs, ce], extends [ce] to
    [max ce e] when the next interval [s, e] has [s <= ce + 1] and otherwise
    closes the period and starts a new one at [s, e].  The adjacent fills
    2020-01-01..2020-01-10 and 2020-01-11..2020-01-20 merge into one period
    of 20 days, with 20 days covered and no gap. *)
Theorem merged_periods_are_merge_pass :
  (forall l : list (date * date),
     map as_MergedPeriod (Fixed.merged_periods (Fixed.coverage_groups l))
     = merge_sorted (ORDER_BY by_start_end l))
  /\ map as_MergedPeriod (Fixed.merged_periods (Fixed.coverage_groups adjacent_fills))
     = [ {| mp_start := TO_DATE 2020 1 1; mp_end := TO_DATE 2020 1 20;
            num_fills_merged := 2; mp_days_covered := 20 |} ]
  /\ option_map (fun r => (Fixed.num_periods r, Fixed.total_days_covered r,
                           Fixed.num_gaps r, Fixed.total_gap_days r))
                (Fixed.aggregate (1, 1000) adjacent_fills)
     = Some (1, 20, 0, 0).
Proof.
  split; [|split; vm_compute; reflexivity].
  intro l. rewrite merged_periods_coverage_groups.
  destruct (ORDER_BY by_start_end l) as [|[s e] t]; [reflexivity|].
  apply scan_merge_pass.
Qed.

(** C7: the merged periods, the gap list and the summary row (with its PDC)
    of a group are the same for every order in which its intervals are
    presented. *)
Theorem aggregator_order_independent (k : Z * Z) (l l' : list (date * date)) :
  Permutation l l' ->
  Fixed.merged_periods (Fixed.coverage_groups l)
  = Fixed.merged_periods (Fixed.coverage_groups l')
  /\ Fixed.gaps (Fixed.merged_periods (Fixed.coverage_groups l))
     = Fixed.gaps (Fixed.merged_periods (Fixed.coverage_groups l'))
  /\ Fixed.aggregate k l = Fixed.aggregate k l'
  /\ V3.aggregate k l = V3.aggregate k l'.
Proof.
  intro HP.
  assert (Hsort : ORDER_BY by_start_end l = ORDER_BY by_start_end l').
  { apply ORDER_BY_permutation;
      [apply by_start_end_total | apply by_start_end_trans
       | apply by_start_end_antisym | exact HP]. }
  assert (Hcg : Fixed.coverage_groups l = Fixed.coverage_groups l').
  { unfold Fixed.coverage_groups. rewrite Hsort. reflexivity. }
  unfold Fixed.aggregate, V3.aggregate, V3.exposure_with_gaps.
  rewrite Hcg, Hsort. repeat split; reflexivity.
Qed.

Lemma aggregator_order_independent_witness :
  Fixed.aggregate (1, 1000)
    [ (TO_DATE 2020 1 15, TO_DATE 2020 1 20); (TO_DATE 2020 1 1, TO_DATE 2020 1 10) ]
  = Fixed.aggregate (1, 1000)
    [ (TO_DATE 2020 1 1, TO_DATE 2020 1 10); (TO_DATE 2020 1 15, TO_DATE 2020 1 20) ].
Proof.
  apply (aggregator_order_independent (1, 1000)
           [ (TO_DATE 2020 1 15, TO_DATE 2020 1 20); (TO_DATE 2020 1 1, TO_DATE 2020 1 10) ]
           [ (TO_DATE 2020 1 1, TO_DATE 2020 1 10); (TO_DATE 2020 1 15, TO_DATE 2020 1 20) ]).
  apply perm_swap.
Defined.

(** C5: the merge-then-measure accounting of airms_helper_fixed and the
    LAG-based adjusted_days_covered of airms_helper_v3 are not equivalent:
    on a group of well-formed intervals with a partial overlap they report
    different total_days_covered and different PDC. *)
Theorem coverage_variants_differ :
  exists l : list (date * date),
    Forall well_formed l
    /\ (exists a b, In a l /\ In b l /\ partial_overlap a b)
    /\ exists rf rv,
         Fixed.aggregate (1, 1000) l = Some rf
         /\ V3.aggregate (1, 1000) l = Some rv
         /\ Fixed.total_days_covered rf <> V3.total_days_covered rv
         /\ Fixed.pdc rf <> V3.clamp_pdc (V3.pdc rv).
Proof.
  exists overlapping_intervals. split.
  { unfold overlapping_intervals, well_formed. repeat constructor; vm_compute; discriminate. }
  split.
  { exists (TO_DATE 2020 1 10, TO_DATE 2020 1 20), (TO_DATE 2020 1 15, TO_DATE 2020 1 30).
    unfold overlapping_intervals, partial_overlap. simpl In.
    repeat split; try tauto; vm_compute; congruence. }
  destruct (Fixed.aggregate (1, 1000) overlapping_intervals) as [rf|] eqn:Ef;
    [|vm_compute in Ef; discriminate].
  destruct (V3.aggregate (1, 1000) overlapping_intervals) as [rv|] eqn:Ev;
    [|vm_compute in Ev; discriminate].
  exists rf, rv. vm_compute in Ef. vm_compute in Ev.
  injection Ef as <-. injection Ev as <-.
  repeat split; vm_compute; discriminate.
Qed.

(** C1: on the fills 2020-01-01..2020-04-09, 2020-01-10..2020-01-20 and
    2020-01-25..2020-01-30 of one patient and drug, airms_helper_v3 reports
    106 covered days and 4 gap days for a treatment duration of 100 days, so
    gaps and coverage do not partition the span; airms_helper_fixed reports
    100 covered days and no gap. *)
Theorem v3_gaps_and_coverage_exceed_span (MEDIAN : list Z -> Z) :
  map (fun row => (V3.total_gap_days (V3.r_summary row),
                   V3.total_days_covered (V3.r_summary row),
                   V3.treatment_duration (V3.r_summary row)))
      (V3.calculate_pdc_server_side MEDIAN (TO_DATE 2020 1 1) (TO_DATE 2020 12 31)
         30 false 2025 contained_fills drug_concepts [] [])
  = [ (4, 106, 100) ]
  /\ Forall (fun row => V3.total_gap_days (V3.r_summary row)
                        + V3.total_days_covered (V3.r_summary row)
                        <> V3.treatment_duration (V3.r_summary row))
            (V3.calculate_pdc_server_side MEDIAN (TO_DATE 2020 1 1) (TO_DATE 2020 12 31)
               30 false 2025 contained_fills drug_concepts [] [])
  /\ map (fun row => (Fixed.total_gap_days (Fixed.r_summary row),
                      Fixed.total_days_covered (Fixed.r_summary row),
                      Fixed.treatment_duration (Fixed.r_summary row)))
         (Fixed.calculate_pdc_server_side (TO_DATE 2020 1 1) (TO_DATE 2020 12 31)
            30 false contained_fills drug_concepts)
     = [ (0, 100, 100) ].
Proof.
  assert (Hrows :
    map (fun row => (V3.total_gap_days (V3.r_summary row),
                     V3.total_days_covered (V3.r_summary row),
                     V3.treatment_duration (V3.r_summary row)))
        (V3.calculate_pdc_server_side MEDIAN (TO_DATE 2020 1 1) (TO_DATE 2020 12 31)
           30 false 2025 contained_fills drug_concepts [] [])
    = [ (4, 106, 100) ]) by (vm_compute; reflexivity).
  split; [exact Hrows|]. split; [|vm_compute; reflexivity].
  apply Forall_forall. intros row Hrow.
  apply (in_map (fun row => (V3.total_gap_days (V3.r_summary row),
                             V3.total_days_covered (V3.r_summary row),
                             V3.treatment_duration (V3.r_summary row)))) in Hrow.
  rewrite Hrows in Hrow. destruct Hrow as [Heq|[]].
  injection Heq as Hg Hc Ht. lia.
Qed.

(** C4: on a 90-day supply from 2020-01-01, a 7-day supply from 2020-01-05
    and a 30-day supply from 2020-02-01 of one patient and drug,
    airms_helper_v3 reports 120 covered days for a treatment duration of 90
    days (a ratio of 1.3333 that the final CASE caps at 1.0);
    airms_helper_fixed reports 90 covered days. *)
Theorem v3_covered_days_exceed_span (MEDIAN : list Z -> Z) :
  map (fun row => (V3.total_days_covered (V3.r_summary row),
                   V3.treatment_duration (V3.r_summary row),
                   V3.pdc (V3.r_summary row),
                   V3.r_pdc row))
      (V3.calculate_pdc_server_side MEDIAN (TO_DATE 2020 1 1) (TO_DATE 2020 12 31)
         30 false 2025 stacked_supplies drug_concepts [] [])
  = [ (120, 90, 13333, 10000) ]
  /\ Forall (fun row => V3.treatment_duration (V3.r_summary row)
                        < V3.total_days_covered (V3.r_summary row))
            (V3.calculate_pdc_server_side MEDIAN (TO_DATE 2020 1 1) (TO_DATE 2020 12 31)
               30 false 2025 stacked_supplies drug_concepts [] [])
  /\ map (fun row => (Fixed.total_days_covered (Fixed.r_summary row),
                      Fixed.treatment_duration (Fixed.r_summary row)))
         (Fixed.calculate_pdc_server_side (TO_DATE 2020 1 1) (TO_DATE 2020 12 31)
            30 false stacked_supplies drug_concepts)
     = [ (90, 90) ].
Proof.
  assert (Hrows :
    map (fun row => (V3.total_days_covered (V3.r_summary row),
                     V3.treatment_duration (V3.r_summary row),
                     V3.pdc (V3.r_summary row),
                     V3.r_pdc row))
        (V3.calculate_pdc_server_side MEDIAN (TO_DATE 2020 1 1) (TO_DATE 2020 12 31)
           30 false 2025 stacked_supplies drug_concepts [] [])
    = [ (120, 90, 13333, 10000) ]) by (vm_compute; reflexivity).
  split; [exact Hrows|]. split; [|vm_compute; reflexivity].
  apply Forall_forall. intros row Hrow.
  apply (in_map (fun row => (V3.total_days_covered (V3.r_summary row),
                             V3.treatment_duration (V3.r_summary row),
                             V3.pdc (V3.r_summary row),
                             V3.r_pdc row))) in Hrow.
  rewrite Hrows in Hrow. destruct Hrow as [Heq|[]].
  injection Heq as Hc Ht _ _. lia.
Qed.

(** ** Rows of a query result *)

Lemma LEFT_JOIN_In {A B} (on : A -> B -> bool) (l : list A) (r : list B)
  (a : A) (ob : option B) :
  In (a, ob) (LEFT_JOIN on l r) ->
  In a l /\ match ob with
            | Some b => In b r /\ on a b = true
            | None => filter (on a) r = []
            end.
Proof.
  unfold LEFT_JOIN. rewrite in_flat_map. intros [a' [Ha' Hin]].
  destruct (filter (on a') r) as [|m ms] eqn:E.
  - destruct Hin as [Heq|[]]. injection Heq as <- <-. split; [exact Ha' | exact E].
  - apply in_map_iff in Hin. destruct Hin as [b [Heq Hb]]. injection Heq as <- <-.
    split; [exact Ha'|]. rewrite <- E in Hb. apply filter_In in Hb. exact Hb.
Qed.


Lemma ORDER_BY_In {A} (leb : A -> A -> bool) (l : list A) (x : A) :
  In x (ORDER_BY leb l) <-> In x l.
Proof.
  split; intro H.
  - eapply Permutation_in; [apply Permutation_sym, ORDER_BY_perm | exact H].
  - eapply Permutation_in; [apply ORDER_BY_perm | exact H].
Qed.

Lemma partition_of_well_formed (k : Z * Z) (rows : list exposure) :
  Forall (fun x => start_date x <= end_date x) rows ->
  Forall well_formed (partition_of k rows).
Proof.
  intro H. unfold partition_of. rewrite Forall_forall in *.
  intros y Hy. apply in_map_iff in Hy. destruct Hy as [x [<- Hx]].
  apply filter_In in Hx. unfold well_formed. simpl. apply H, Hx.
Qed.

Lemma fixed_summary_origin (cleaned : list exposure) (p : Fixed.pdc_row) :
  In p (Fixed.patient_drug_pdc cleaned) ->
  exists k, Fixed.aggregate k (partition_of k cleaned) = Some p.
Proof.
  unfold Fixed.patient_drug_pdc. rewrite in_flat_map. intros [k [_ Hin]].
  exists k. destruct (Fixed.aggregate k (partition_of k cleaned)) as [r|]; [|destruct Hin].
  destruct Hin as [->|[]]. reflexivity.
Qed.

Lemma fixed_row_origin (from to : date) (m : Z) (flt : bool)
  (T : list DRUG_EXPOSURE) (C : list CONCEPT) (row : Fixed.result_row) :
  In row (Fixed.calculate_pdc_server_side from to m flt T C) ->
  exists c,
    In (Fixed.r_summary row, c)
       (LEFT_JOIN (fun p c => Fixed.pr_drug_concept_id p =? concept_id c)
          (Fixed.patient_drug_pdc (Fixed.drug_exposures_cleaned from to flt T)) C)
    /\ m <= Fixed.treatment_duration (Fixed.r_summary row)
    /\ Fixed.drug_name row = name_of c.
Proof.
  unfold Fixed.calculate_pdc_server_side. rewrite in_map_iff.
  intros [[p c] [<- Hin]]. apply ORDER_BY_In, filter_In in Hin.
  destruct Hin as [Hin Hm]. exists c. simpl in *.
  split; [exact Hin|]. split; [apply Z.leb_le, Hm | reflexivity].
Qed.

(** For every group in the result of airms_helper_fixed whose intervals are
    well formed, gap days and covered days add up to the treatment
    duration. *)
Lemma fixed_result_partition (from to : date) (m : Z) (flt : bool)
  (T : list DRUG_EXPOSURE) (C : list CONCEPT) (row : Fixed.result_row) :
  Forall (fun x => start_date x <= end_date x) (Fixed.drug_exposures_cleaned from to flt T) ->
  In row (Fixed.calculate_pdc_server_side from to m flt T C) ->
  Fixed.total_gap_days (Fixed.r_summary row) + Fixed.total_days_covered (Fixed.r_summary row)
  = Fixed.treatment_duration (Fixed.r_summary row).
Proof.
  intros Hwf Hrow. apply fixed_row_origin in Hrow. destruct Hrow as [c [Hin _]].
  apply LEFT_JOIN_In in Hin. destruct Hin as [Hp _].
  apply fixed_summary_origin in Hp. destruct Hp as [k Hk].
  eapply fixed_coverage_partition; [|exact Hk].
  apply partition_of_well_formed, Hwf.
Qed.

(** For every group in the result of airms_helper_fixed, the covered days
    do not exceed the treatment duration. *)
Lemma fixed_result_bounded (from to : date) (m : Z) (flt : bool)
  (T : list DRUG_EXPOSURE) (C : list CONCEPT) (row : Fixed.result_row) :
  In row (Fixed.calculate_pdc_server_side from to m flt T C) ->
  Fixed.total_days_covered (Fixed.r_summary row)
  <= Fixed.treatment_duration (Fixed.r_summary row).
Proof.
  intros Hrow. apply fixed_row_origin in Hrow. destruct Hrow as [c [Hin _]].
  apply LEFT_JOIN_In in Hin. destruct Hin as [Hp _].
  apply fixed_summary_origin in Hp. destruct Hp as [k Hk].
  eapply fixed_coverage_bounded. exact Hk.
Qed.

(** ** The PDC ratio *)

Lemma ROUND4_div_rounds (num den : Z) :
  0 < den -> rounded_to_4_decimals (ROUND4_div num den) num den.
Proof.
  intro Hden. unfold rounded_to_4_decimals, ROUND4_div.
  destruct (0 <=? num) eqn:E.
  - pose proof (Z.div_mod (2 * (10000 * num) + den) (2 * den) ltac:(lia)) as Hdm.
    pose proof (Z.mod_pos_bound (2 * (10000 * num) + den) (2 * den) ltac:(lia)) as Hb.
    set (q := (2 * (10000 * num) + den) / (2 * den)) in *.
    set (r := (2 * (10000 * num) + den) mod (2 * den)) in *.
    lia.
  - pose proof (Z.div_mod (2 * (10000 * - num) + den) (2 * den) ltac:(lia)) as Hdm.
    pose proof (Z.mod_pos_bound (2 * (10000 * - num) + den) (2 * den) ltac:(lia)) as Hb.
    set (q := (2 * (10000 * - num) + den) / (2 * den)) in *.
    set (r := (2 * (10000 * - num) + den) mod (2 * den)) in *.
    lia.
Qed.


Lemma v3_summary_row_shape (k : Z * Z) (ws : list V3.exposure_gap) (r : V3.pdc_row) :
  V3.patient_drug_summary_row k ws = Some r ->
  V3.pr_person_id r = fst k
  /\ V3.pr_drug_concept_id r = snd k
  /\ V3.pdc r = (if 0 <? V3.treatment_duration r
                 then ROUND4_div (V3.total_days_covered r) (V3.treatment_duration r)
                 else 0).
Proof.
  destruct ws as [|w t]; simpl; [discriminate|].
  intro H. injection H as <-. simpl. repeat split; reflexivity.
Qed.





(** ** Groups kept and omitted by the join with CONCEPT *)




(** ** Gap severity *)

Lemma fixed_gap_row_severity (from to : date) (m : Z) (flt : bool)
  (T : list DRUG_EXPOSURE) (C : list CONCEPT) (row : gap_detail) :
  In row (Fixed.get_detailed_gaps from to m flt T C) ->
  gd_gap_severity row = gap_severity (gd_gap_days row) /\ m <= gd_gap_days row.
Proof.
  unfold Fixed.get_detailed_gaps. rewrite in_map_iff.
  intros [[row' c] [<- Hin]]. apply ORDER_BY_In, in_flat_map in Hin.
  destruct Hin as [gc [_ Hin]].
  destruct (Fixed.d_gap_days (fst gc)) as [gd|]; [|destruct Hin].
  destruct (m <=? gd) eqn:E; [|destruct Hin].
  destruct Hin as [Heq|[]]. injection Heq as <- _. simpl.
  split; [reflexivity | apply Z.leb_le, E].
Qed.

Lemma v3_gap_row_severity (MEDIAN : list Z -> Z) (from to : date) (m : Z) (flt : bool)
  (T : list DRUG_EXPOSURE) (C : list CONCEPT) (row : gap_detail) :
  In row (V3.get_detailed_gaps MEDIAN from to m flt T C) ->
  gd_gap_severity row = gap_severity (gd_gap_days row) /\ m <= gd_gap_days row.
Proof.
  unfold V3.get_detailed_gaps. rewrite in_map_iff.
  intros [[row' c] [<- Hin]]. apply ORDER_BY_In, in_flat_map in Hin.
  destruct Hin as [gc [_ Hin]].
  destruct (m <=? V3.c_gap_days (fst gc)) eqn:E; [|destruct Hin].
  destruct Hin as [Heq|[]]. injection Heq as <- _. simpl.
  split; [reflexivity | apply Z.leb_le, E].
Qed.

(** C9: the severity of a gap depends on gap_days alone, with the fixed
    thresholds 90, 30, 14 and 7, and every row of get_detailed_gaps carries
    it; the fills 2020-01-01..2020-01-10 and 2020-01-15..2020-01-20 give one
    gap of 4 days, from 2020-01-11 to 2020-01-14, labelled Minimal Gap. *)
Theorem gap_severity_buckets :
  (forall g : Z,
     (90 <= g -> gap_severity g = "Critical Gap (90+ days)"%string)
     /\ (30 <= g <= 89 -> gap_severity g = "Major Gap (30-89 days)"%string)
     /\ (14 <= g <= 29 -> gap_severity g = "Moderate Gap (14-29 days)"%string)
     /\ (7 <= g <= 13 -> gap_severity g = "Minor Gap (7-13 days)"%string)
     /\ (g < 7 -> gap_severity g = "Minimal Gap (<7 days)"%string))
  /\ (forall MEDIAN from to m flt T C row,
        In row (Fixed.get_detailed_gaps from to m flt T C)
        \/ In row (V3.get_detailed_gaps MEDIAN from to m flt T C) ->
        gd_gap_severity row = gap_severity (gd_gap_days row))
  /\ map (fun row => (gap_start_date row, gap_end_date row, gd_gap_days row,
                      gd_gap_severity row))
         (Fixed.get_detailed_gaps (TO_DATE 2020 1 1) (TO_DATE 2020 12 31) 1 false
            spaced_fills drug_concepts)
     = [ (TO_DATE 2020 1 11, Some (TO_DATE 2020 1 14), 4, "Minimal Gap (<7 days)"%string) ]
  /\ map (fun row => (gap_start_date row, gap_end_date row, gd_gap_days row,
                      gd_gap_severity row))
         (V3.get_detailed_gaps (fun _ => 30) (TO_DATE 2020 1 1) (TO_DATE 2020 12 31) 1 false
            spaced_fills drug_concepts)
     = [ (TO_DATE 2020 1 11, Some (TO_DATE 2020 1 14), 4, "Minimal Gap (<7 days)"%string) ]
  /\ option_map (fun r => (Fixed.num_gaps r, Fixed.total_gap_days r))
                (Fixed.aggregate (1, 1000)
                   [ (TO_DATE 2020 1 1, TO_DATE 2020 1 10);
                     (TO_DATE 2020 1 15, TO_DATE 2020 1 20) ])
     = Some (1, 4).
Proof.
  split; [|split; [|repeat split; vm_compute; reflexivity]].
  - intro g. unfold gap_severity.
    destruct (Z.leb_spec 90 g); [repeat split; intros; (reflexivity || lia)|].
    destruct (Z.leb_spec 30 g); [repeat split; intros; (reflexivity || lia)|].
    destruct (Z.leb_spec 14 g); [repeat split; intros; (reflexivity || lia)|].
    destruct (Z.leb_spec 7 g); repeat split; intros; (reflexivity || lia).
  - intros MEDIAN from to m flt T C row [H|H].
    + apply fixed_gap_row_severity in H. apply H.
    + apply v3_gap_row_severity in H. apply H.
Qed.

(** ** The Interval Normalizer *)

Lemma positive_value_Some (o : option Z) (v : Z) :
  positive_value o = Some v <-> o = Some v /\ 0 < v.
Proof.
  unfold positive_value. destruct o as [x|]; [|split; [discriminate | intros [? _]; discriminate]].
  destruct (0 <? x) eqn:E.
  - apply Z.ltb_lt in E. split.
    + intro H. injection H as <-. split; [reflexivity | exact E].
    + intros [H _]. exact H.
  - apply Z.ltb_ge in E. split; [discriminate|].
    intros [H Hv]. injection H as <-. lia.
Qed.

Lemma positive_value_None (o : option Z) :
  positive_value o = None <-> absent_or_not_positive o.
Proof.
  unfold positive_value, absent_or_not_positive. destruct o as [x|].
  - destruct (0 <? x) eqn:E.
    + apply Z.ltb_lt in E. split; [discriminate|].
      intro H. specialize (H x eq_refl). lia.
    + apply Z.ltb_ge in E. split; [|reflexivity].
      intros _ v Hv. injection Hv as <-. exact E.
  - split; [intros _ v Hv; discriminate | reflexivity].
Qed.




Lemma filter_keyed_map (f : Z -> Z) (keys : list Z) (d : Z) :
  NoDup keys ->
  filter (fun m : Z * Z => d =? fst m) (map (fun k => (k, f k)) keys)
  = if in_dec Z.eq_dec d keys then [(d, f d)] else [].
Proof.
  induction 1 as [|k t Hk Hnd IH]; simpl; [reflexivity|].
  rewrite IH. destruct (Z.eqb_spec d k) as [->|Hne].
  - destruct (Z.eq_dec k k) as [Hkk|]; [|congruence].
    destruct (in_dec Z.eq_dec k t); [contradiction | reflexivity].
  - destruct (Z.eq_dec k d) as [Heq|Hkd]; [congruence|].
    destruct (in_dec Z.eq_dec d t); reflexivity.
Qed.

Lemma supplies_of_nonempty (d : Z) (T : list DRUG_EXPOSURE) :
  V3.supplies_of d T <> []
  <-> In d (map drug_concept_id
              (filter (fun de => IS_NOT_NULL (positive_value (days_supply de))) T)).
Proof.
  unfold V3.supplies_of. induction T as [|de T IH]; [simpl; tauto|].
  cbn [filter]. remember (positive_value (days_supply de)) as pv eqn:Epv.
  destruct (Z.eqb_spec (drug_concept_id de) d) as [Hd|Hd]; destruct pv as [v|];
    cbn [IS_NOT_NULL flat_map map In app]; rewrite <- ?Epv.
  - split; [intros _; left; exact Hd | discriminate].
  - exact IH.
  - rewrite IH. split; [tauto | intros [H|H]; [congruence | exact H]].
  - exact IH.
Qed.

(** The LEFT JOIN with drug_median_supply finds, for a record of drug [d],
    the median row of [d] when [d] has one and no row otherwise. *)
Lemma median_row_of_drug (MEDIAN : list Z -> Z) (T : list DRUG_EXPOSURE) (d : Z) :
  filter (fun m : Z * Z => d =? fst m) (V3.drug_median_supply MEDIAN T)
  = match drug_median MEDIAN T d with
    | Some v => [(d, v)]
    | None => []
    end.
Proof.
  unfold V3.drug_median_supply, DISTINCT.
  rewrite (filter_keyed_map (fun k => MEDIAN (V3.supplies_of k T))) by apply NoDup_nodup.
  unfold drug_median.
  destruct (in_dec Z.eq_dec d _) as [Hin|Hnin].
  - apply nodup_In, supplies_of_nonempty in Hin.
    destruct (V3.supplies_of d T); [congruence | reflexivity].
  - destruct (V3.supplies_of d T) as [|v vs] eqn:E; [reflexivity|].
    exfalso. apply Hnin, nodup_In, supplies_of_nonempty. rewrite E. discriminate.
Qed.



(** The chain of airms_helper_fixed is the one of airms_helper_v3 for a
    drug without a median: it has no median rule. *)
Lemma fixed_chain_has_no_median_rule (de : DRUG_EXPOSURE) (s : date) :
  Fixed.calculated_end_date de s = V3.calculated_end_date de None s.
Proof. reflexivity. Qed.

(** ** Records without a start date *)







(** ** Worked examples *)

(** A days_supply of 0 falls through to the drug median (60 days):
    2020-06-01 to 2020-07-30; airms_helper_fixed, which has no median rule,
    falls through to the 30-day default, 2020-06-30. *)
Example zero_supply_falls_through :
  map (fun iv => (start_date iv, end_date iv))
      (V3.drug_exposures_with_dates middle_value (TO_DATE 2020 6 1) (TO_DATE 2020 12 31)
         false zero_supply_fills)
  = [ (TO_DATE 2020 6 1, TO_DATE 2020 7 30) ]
  /\ map (fun iv => (start_date iv, end_date iv))
         (Fixed.drug_exposures_cleaned (TO_DATE 2020 6 1) (TO_DATE 2020 12 31)
            false zero_supply_fills)
     = [ (TO_DATE 2020 6 1, TO_DATE 2020 6 30) ].
Proof. split; vm_compute; reflexivity. Qed.

(** With the default min_gap_days of 7 the 4-day gap of [spaced_fills] is
    not reported. *)
Example short_gap_filtered_by_default :
  Fixed.get_detailed_gaps (TO_DATE 2020 1 1) (TO_DATE 2020 12 31) 7 false
    spaced_fills drug_concepts = [].
Proof. vm_compute. reflexivity. Qed.

(** An explicit end date before the start date gives an interval that is
    not well formed, on which the partition of the span is lost. *)
Example inverted_interval_breaks_partition :
  option_map (fun r => (Fixed.total_gap_days r, Fixed.total_days_covered r,
                        Fixed.treatment_duration r))
             (Fixed.aggregate (1, 1000) [ (1, 10); (20, 5) ])
  = Some (9, -4, 10).
Proof. vm_compute. reflexivity. Qed.

(** ** The ratio of the merge-then-measure variant *)

Lemma scan_days_positive (t : list (date * date)) (g : Z) (cs ce : date) (n : Z) :
  Forall well_formed t -> cs <= ce ->
  Forall (fun x => 0 <= x) (map Fixed.days_covered (scan g cs ce n t)).
Proof.
  revert g cs ce n. induction t as [|[s e] t IH]; intros g cs ce n Hwf Hc; simpl.
  - repeat constructor. unfold DAYS_BETWEEN. lia.
  - inversion Hwf as [|? ? Hse Hwf']; subst. unfold well_formed in Hse. simpl in Hse.
    destruct (s <=? ce + 1).
    + apply IH; [exact Hwf' | lia].
    + simpl. constructor; [unfold DAYS_BETWEEN; lia|].
      apply IH; [exact Hwf' | exact Hse].
Qed.

Lemma fixed_covered_nonneg (k : Z * Z) (l : list (date * date)) (r : Fixed.pdc_row) :
  Forall well_formed l ->
  Fixed.aggregate k l = Some r ->
  0 <= Fixed.total_days_covered r.
Proof.
  intros Hwf Hr.
  destruct l as [|x l']; [discriminate|].
  destruct (ORDER_BY_nonempty (x :: l')) as [s [e [t Hl]]]; [discriminate|].
  assert (Hall : Forall well_formed ((s, e) :: t)).
  { rewrite <- Hl. eapply Permutation_Forall; [apply ORDER_BY_perm | exact Hwf]. }
  inversion Hall as [|? ? Hse Hwft]; subst. unfold well_formed in Hse. simpl in Hse.
  pose proof (ordered_ORDER_BY (x :: l')) as Hord. rewrite Hl in Hord.
  apply ordered_tail in Hord. destruct Hord as [Hord Hle]. simpl in Hle.
  unfold Fixed.aggregate in Hr.
  rewrite merged_periods_coverage_groups, Hl in Hr.
  set (g := if s <=? TO_DATE 1900 1 1 + 1 then 0 else 1) in Hr.
  rewrite (gaps_of_scan t g s e 1 Hord Hle) in Hr.
  pose proof (scan_days_positive t g s e 1 Hwft Hse) as Hpos.
  destruct (scan_head t g s e 1) as [p [rest [Hp _]]].
  rewrite Hp in *.
  destruct (patient_drug_pdc_row_periods k p rest) as [r' [Hr' [Hcov _]]].
  rewrite Hr in Hr'. injection Hr' as <-.
  rewrite Hcov. apply SUM_nonneg, Hpos.
Qed.

Lemma ROUND4_div_unit (num den : Z) :
  0 <= num <= den -> 0 < den -> 0 <= ROUND4_div num den <= 10000.
Proof.
  intros Hn Hd. unfold ROUND4_div.
  replace (0 <=? num) with true by (symmetry; apply Z.leb_le; lia).
  split.
  - apply Z.div_pos; lia.
  - assert ((2 * (10000 * num) + den) / (2 * den) < 10001); [|lia].
    apply Z.div_lt_upper_bound; lia.
Qed.

(** In airms_helper_fixed, which has no final CASE on pdc, the ratio of a
    group of well-formed intervals is already within [0, 1]: it is the
    rounded quotient, clamped or not. *)
Lemma fixed_pdc_rounded (from to : date) (m : Z) (flt : bool)
  (T : list DRUG_EXPOSURE) (C : list CONCEPT) (row : Fixed.result_row) :
  Forall (fun x => start_date x <= end_date x) (Fixed.drug_exposures_cleaned from to flt T) ->
  In row (Fixed.calculate_pdc_server_side from to m flt T C) ->
  (0 < Fixed.treatment_duration (Fixed.r_summary row) ->
   exists q,
     rounded_to_4_decimals q (Fixed.total_days_covered (Fixed.r_summary row))
                             (Fixed.treatment_duration (Fixed.r_summary row))
     /\ Fixed.pdc (Fixed.r_summary row) = clamp01 q)
  /\ (Fixed.treatment_duration (Fixed.r_summary row) <= 0 ->
      Fixed.pdc (Fixed.r_summary row) = 0).
Proof.
  intros Hwf Hrow. apply fixed_row_origin in Hrow. destruct Hrow as [c [Hin _]].
  apply LEFT_JOIN_In in Hin. destruct Hin as [Hp _].
  apply fixed_summary_origin in Hp. destruct Hp as [k Hk].
  pose proof (partition_of_well_formed k _ Hwf) as Hwfk.
  pose proof (fixed_covered_nonneg k _ _ Hwfk Hk) as Hlo.
  pose proof (fixed_coverage_bounded k _ _ Hk) as Hhi.
  apply patient_drug_pdc_row_shape in Hk. destruct Hk as [_ [_ [_ Hpdc]]].
  rewrite Hpdc. split.
  - intro Htd.
    replace (0 <? Fixed.treatment_duration (Fixed.r_summary row)) with true
      by (symmetry; apply Z.ltb_lt, Htd).
    eexists. split; [apply ROUND4_div_rounds, Htd|].
    pose proof (ROUND4_div_unit _ _ (conj Hlo Hhi) Htd). unfold clamp01. lia.
  - intro Htd.
    replace (0 <? Fixed.treatment_duration (Fixed.r_summary row)) with false
      by (symmetry; apply Z.ltb_ge, Htd).
    reflexivity.
Qed.

(** ** Order of the rows of the table *)

Lemma partition_of_permutation (k : Z * Z) (rows rows' : list exposure) :
  Permutation rows rows' -> Permutation (partition_of k rows) (partition_of k rows').
Proof.
  intro HP. unfold partition_of. apply Permutation_map.
  induction HP as [|x l l' _ IH|x y l|l l' l'' _ IH1 _ IH2]; simpl.
  - apply perm_nil.
  - destruct ((e_person_id x =? fst k) && (e_drug_concept_id x =? snd k));
      [apply perm_skip, IH | exact IH].
  - destruct ((e_person_id x =? fst k) && (e_drug_concept_id x =? snd k));
      destruct ((e_person_id y =? fst k) && (e_drug_concept_id y =? snd k));
      try apply Permutation_refl. apply perm_swap.
  - eapply perm_trans; eassumption.
Qed.

(** The summary of a group does not depend on the order in which the
    cleaned rows arrive. *)
Lemma fixed_group_summary_row_order (k : Z * Z) (rows rows' : list exposure) :
  Permutation rows rows' ->
  Fixed.aggregate k (partition_of k rows) = Fixed.aggregate k (partition_of k rows').
Proof.
  intro HP. apply partition_of_permutation with (k := k) in HP.
  unfold Fixed.aggregate, Fixed.coverage_groups.
  rewrite (ORDER_BY_permutation by_start_end by_start_end_total by_start_end_trans
             by_start_end_antisym _ _ HP).
  reflexivity.
Qed.

(** * Further properties of the queries *)

(** ** get_drug_exposures *)




Lemma v3_listing_origin (MEDIAN : list Z -> Z) (from to : date) (flt : bool)
  (T : list DRUG_EXPOSURE) (row : V3.listing) :
  In row (V3.get_drug_exposures_query MEDIAN from to flt T) ->
  exists dms,
    In (V3.l_source row, dms)
       (LEFT_JOIN (fun de m => drug_concept_id de =? fst m) T (V3.drug_median_supply MEDIAN T))
    /\ where_clause from to flt (V3.l_source row) = true
    /\ drug_exposure_start_date (V3.l_source row) = Some (V3.l_start_date row)
    /\ V3.median_days_supply row = option_map snd dms
    /\ V3.l_calculated_end_date row
       = V3.calculated_end_date (V3.l_source row) dms (V3.l_start_date row)
    /\ V3.l_days_covered row
       = V3.days_covered_of (V3.l_source row) dms (V3.l_start_date row)
    /\ V3.imputation_method row = V3.imputation_method_of (V3.l_source row) dms.
Proof.
  unfold V3.get_drug_exposures_query, V3.joined_with_median.
  rewrite ORDER_BY_In, in_flat_map.
  intros [[de dms] [Hj Hin]]. apply filter_In in Hj. destruct Hj as [Hj Hw].
  cbn [fst snd] in *.
  destruct (drug_exposure_start_date de) as [s|] eqn:Es; [|destruct Hin].
  destruct Hin as [<-|[]]. exists dms. simpl. repeat split; assumption.
Qed.


Lemma map_flat_map {A B C} (f : B -> C) (g : A -> list B) (l : list A) :
  map f (flat_map g l) = flat_map (fun a => map f (g a)) l.
Proof.
  induction l as [|a t IH]; simpl; [reflexivity|].
  rewrite map_app, IH. reflexivity.
Qed.

(** X2: the intervals get_drug_exposures lists are, up to the order of the
    rows, the ones calculate_pdc_server_side of the same helper computes the
    PDC from. *)
Theorem listed_intervals_are_pdc_intervals (MEDIAN : list Z -> Z) (from to : date)
  (flt : bool) (T : list DRUG_EXPOSURE) :
  Permutation (map fixed_listing_interval (Fixed.get_drug_exposures_query from to flt T))
              (Fixed.drug_exposures_cleaned from to flt T)
  /\ Permutation (map v3_listing_interval (V3.get_drug_exposures_query MEDIAN from to flt T))
                 (V3.drug_exposures_with_dates MEDIAN from to flt T).
Proof.
  split.
  - unfold Fixed.get_drug_exposures_query, Fixed.drug_exposures_cleaned.
    eapply perm_trans;
      [apply Permutation_map, Permutation_sym, ORDER_BY_perm|].
    rewrite map_flat_map.
    match goal with |- Permutation ?a ?b => assert (E : a = b) end;
      [|rewrite E; apply Permutation_refl].
    apply flat_map_ext. intro de. destruct (drug_exposure_start_date de); reflexivity.
  - unfold V3.get_drug_exposures_query, V3.drug_exposures_with_dates.
    eapply perm_trans;
      [apply Permutation_map, Permutation_sym, ORDER_BY_perm|].
    rewrite map_flat_map.
    match goal with |- Permutation ?a ?b => assert (E : a = b) end;
      [|rewrite E; apply Permutation_refl].
    apply flat_map_ext. intros [de dms]. cbn [fst snd].
    destruct (drug_exposure_start_date de); reflexivity.
Qed.

Lemma imputation_method_cases (de : DRUG_EXPOSURE) (dms : option (Z * Z)) (s : date) :
  (V3.imputation_method_of de dms = "actual_end_date"%string
   /\ drug_exposure_end_date de = Some (V3.calculated_end_date de dms s))
  \/ (V3.imputation_method_of de dms = "days_supply"%string
      /\ drug_exposure_end_date de = None
      /\ days_supply de = Some (V3.days_covered_of de dms s)
      /\ 0 < V3.days_covered_of de dms s)
  \/ (V3.imputation_method_of de dms = "refills"%string
      /\ drug_exposure_end_date de = None
      /\ absent_or_not_positive (days_supply de)
      /\ exists r, refills de = Some r /\ 0 < r /\ V3.days_covered_of de dms s = r * 30)
  \/ (V3.imputation_method_of de dms = "drug_median"%string
      /\ drug_exposure_end_date de = None
      /\ absent_or_not_positive (days_supply de)
      /\ absent_or_not_positive (refills de)
      /\ option_map snd dms = Some (V3.days_covered_of de dms s))
  \/ (V3.imputation_method_of de dms = "default_30"%string
      /\ drug_exposure_end_date de = None
      /\ absent_or_not_positive (days_supply de)
      /\ absent_or_not_positive (refills de)
      /\ dms = None
      /\ V3.days_covered_of de dms s = 30).
Proof.
  unfold V3.imputation_method_of, V3.days_covered_of, V3.calculated_end_date.
  destruct (drug_exposure_end_date de) as [e|]; cbn [IS_NOT_NULL].
  { left. split; reflexivity. }
  right.
  destruct (positive_value (days_supply de)) as [d|] eqn:Ed; cbn [IS_NOT_NULL].
  { apply positive_value_Some in Ed. destruct Ed as [Hd Hp]. left. repeat split; assumption. }
  apply positive_value_None in Ed. right.
  destruct (positive_value (refills de)) as [r|] eqn:Er; cbn [IS_NOT_NULL].
  { apply positive_value_Some in Er. destruct Er as [Hr Hp]. left.
    repeat split; try assumption. exists r. repeat split; assumption. }
  apply positive_value_None in Er. right.
  destruct dms as [m|]; cbn [IS_NOT_NULL].
  - left. repeat split; assumption.
  - right. repeat split; assumption.
Qed.

(** X3: in every row of get_drug_exposures of airms_helper_v3 the
    imputation_method names the rule that gave the end date and the days
    covered: the explicit end date; the row's positive days_supply; 30 days
    per refill; the joined median, which is the median of the drug; or 30
    days when the drug has no median. *)
Theorem imputation_method_names_the_rule (MEDIAN : list Z -> Z) (from to : date)
  (flt : bool) (T : list DRUG_EXPOSURE) :
  Forall (fun row =>
    V3.median_days_supply row = drug_median MEDIAN T (drug_concept_id (V3.l_source row))
    /\ ((V3.imputation_method row = "actual_end_date"%string
         /\ drug_exposure_end_date (V3.l_source row) = Some (V3.l_calculated_end_date row))
        \/ (V3.imputation_method row = "days_supply"%string
            /\ drug_exposure_end_date (V3.l_source row) = None
            /\ days_supply (V3.l_source row) = Some (V3.l_days_covered row)
            /\ 0 < V3.l_days_covered row)
        \/ (V3.imputation_method row = "refills"%string
            /\ drug_exposure_end_date (V3.l_source row) = None
            /\ absent_or_not_positive (days_supply (V3.l_source row))
            /\ exists r, refills (V3.l_source row) = Some r /\ 0 < r
                         /\ V3.l_days_covered row = r * 30)
        \/ (V3.imputation_method row = "drug_median"%string
            /\ drug_exposure_end_date (V3.l_source row) = None
            /\ absent_or_not_positive (days_supply (V3.l_source row))
            /\ absent_or_not_positive (refills (V3.l_source row))
            /\ V3.median_days_supply row = Some (V3.l_days_covered row))
        \/ (V3.imputation_method row = "default_30"%string
            /\ drug_exposure_end_date (V3.l_source row) = None
            /\ absent_or_not_positive (days_supply (V3.l_source row))
            /\ absent_or_not_positive (refills (V3.l_source row))
            /\ V3.median_days_supply row = None
            /\ V3.l_days_covered row = 30)))
    (V3.get_drug_exposures_query MEDIAN from to flt T).
Proof.
  apply Forall_forall. intros row Hrow. apply v3_listing_origin in Hrow.
  destruct Hrow as [dms [Hj [_ [_ [Hmed [Hend [Hdays Hm]]]]]]].
  assert (Hdms : option_map snd dms
                 = drug_median MEDIAN T (drug_concept_id (V3.l_source row))).
  { apply LEFT_JOIN_In in Hj. destruct Hj as [_ Hj].
    pose proof (median_row_of_drug MEDIAN T (drug_concept_id (V3.l_source row))) as Hrow.
    destruct dms as [m|].
    - destruct Hj as [Hin Hon].
      assert (Hf : In m (filter (fun m0 : Z * Z => drug_concept_id (V3.l_source row) =? fst m0)
                                (V3.drug_median_supply MEDIAN T)))
        by (apply filter_In; split; assumption).
      rewrite Hrow in Hf.
      destruct (drug_median MEDIAN T (drug_concept_id (V3.l_source row))) as [v|];
        [|destruct Hf].
      destruct Hf as [<-|[]]. reflexivity.
    - rewrite Hj in Hrow.
      destruct (drug_median MEDIAN T (drug_concept_id (V3.l_source row))); [discriminate|].
      reflexivity. }
  split; [congruence|].
  rewrite Hmed, Hend, Hdays, Hm.
  destruct (imputation_method_cases (V3.l_source row) dms (V3.l_start_date row))
    as [H|[H|[H|[H|H]]]].
  - left. exact H.
  - right; left. exact H.
  - right; right; left. exact H.
  - right; right; right; left. exact H.
  - right; right; right; right.
    destruct H as [H1 [H2 [H3 [H4 [H5 H6]]]]]. subst dms. repeat split; assumption.
Qed.



(** ** get_actual_date_range *)

Lemma MIN1_le (t : list Z) (x y : Z) : In y t -> MIN1 x t <= y.
Proof.
  unfold MIN1. revert x. induction t as [|z t IH]; intros x Hin; simpl in *; [tauto|].
  destruct Hin as [->|Hin].
  - pose proof (MIN1_le_init t (Z.min x y)) as H. unfold MIN1 in H. lia.
  - apply IH, Hin.
Qed.

Lemma MIN_lower (l : list Z) (lo : Z) : MIN l = Some lo -> forall x, In x l -> lo <= x.
Proof.
  destruct l as [|a t]; [discriminate|]. simpl. intro H. injection H as <-.
  intros x [<-|Hx]; [apply (MIN1_le_init t a) | apply (MIN1_le t a x Hx)].
Qed.

Lemma MAX_upper (l : list Z) (hi : Z) : MAX l = Some hi -> forall x, In x l -> x <= hi.
Proof.
  destruct l as [|a t]; [discriminate|]. simpl. intro H. injection H as <-.
  intros x [<-|Hx]; [apply (MAX1_ge_init t a) | apply (MAX1_ge t a x Hx)].
Qed.

Lemma flat_map_singletons_length {A B} (f : A -> list B) (l : list A) :
  (forall x, In x l -> length (f x) = 1%nat) -> length (flat_map f l) = length l.
Proof.
  induction l as [|a t IH]; intro H; simpl; [reflexivity|].
  rewrite length_app, H by (left; reflexivity).
  rewrite IH; [reflexivity|]. intros x Hx. apply H. right. exact Hx.
Qed.

(** X5: with the date range that get_actual_date_range reads off the table,
    every record that has a start date passes the WHERE clause (without the
    drug-type filter), so the cleaned CTE has one interval per dated
    record. *)
Theorem actual_range_keeps_every_dated_record (T : list DRUG_EXPOSURE) (lo hi : date) :
  get_actual_date_range T = (Some lo, Some hi) ->
  (forall de, In de T -> has_start_date de = true -> where_clause lo hi false de = true)
  /\ length (Fixed.drug_exposures_cleaned lo hi false T)
     = length (filter has_start_date T).
Proof.
  unfold get_actual_date_range. intro H. injection H as Hlo Hhi.
  assert (Hall : forall de, In de T -> has_start_date de = true ->
                            where_clause lo hi false de = true).
  { intros de Hde Hs. unfold has_start_date, where_clause in *.
    destruct (drug_exposure_start_date de) as [s|] eqn:Es; [|discriminate].
    assert (Hin : In s (flat_map (fun de => match drug_exposure_start_date de with
                                            | Some s => [s]
                                            | None => []
                                            end) T)).
    { apply in_flat_map. exists de. split; [exact Hde|]. rewrite Es. left. reflexivity. }
    pose proof (MIN_lower _ _ Hlo s Hin). pose proof (MAX_upper _ _ Hhi s Hin).
    rewrite andb_true_r. apply andb_true_intro. split; apply Z.leb_le; assumption. }
  split; [exact Hall|].
  unfold Fixed.drug_exposures_cleaned.
  assert (Hf : filter (where_clause lo hi false) T = filter has_start_date T).
  { apply filter_ext_in. intros de Hde.
    destruct (has_start_date de) eqn:Es; [apply Hall; assumption|].
    unfold has_start_date, where_clause in *.
    destruct (drug_exposure_start_date de); [discriminate | reflexivity]. }
  rewrite Hf. apply flat_map_singletons_length.
  intros de Hde. apply filter_In in Hde. destruct Hde as [_ Hs].
  unfold has_start_date in Hs.
  destruct (drug_exposure_start_date de); [reflexivity | discriminate].
Qed.

Lemma actual_range_keeps_every_dated_record_witness :
  length (Fixed.drug_exposures_cleaned (TO_DATE 2020 1 1) (TO_DATE 2020 1 25) false
            (undated_fill :: contained_fills))
  = length (filter has_start_date (undated_fill :: contained_fills)).
Proof.
  apply (actual_range_keeps_every_dated_record (undated_fill :: contained_fills)
           (TO_DATE 2020 1 1) (TO_DATE 2020 1 25)).
  vm_compute. reflexivity.
Defined.

(** ** get_detailed_gaps *)

Lemma OVER_In {A B} (f : list A -> A -> B) (l preceding : list A) (y : B) :
  In y (OVER f preceding l) -> exists p x, In x l /\ y = f p x.
Proof.
  revert preceding. induction l as [|a t IH]; intros preceding Hy; simpl in Hy; [tauto|].
  destruct Hy as [<-|Hy].
  - exists preceding, a. split; [left|]; reflexivity.
  - apply IH in Hy. destruct Hy as [p [x [Hx ->]]].
    exists p, x. split; [right; exact Hx | reflexivity].
Qed.

(** X6: every row that get_detailed_gaps of airms_helper_fixed reports has
    a following fill, its gap starts the day after the fill ends and ends
    the day before the next fill starts, gap_days is the number of days
    from gap_start_date to gap_end_date inclusive, and it is at least
    min_gap_days. *)
Theorem fixed_gap_rows_consistent (from to : date) (m : Z) (flt : bool)
  (T : list DRUG_EXPOSURE) (C : list CONCEPT) :
  Forall (fun row =>
            m <= gd_gap_days row
            /\ gap_start_date row = fill_before_gap_end_date row + 1
            /\ exists next ge,
                 fill_after_gap_date row = Some next
                 /\ gap_end_date row = Some ge
                 /\ ge = next - 1
                 /\ gd_gap_days row = DAYS_BETWEEN (gap_start_date row) ge + 1)
         (Fixed.get_detailed_gaps from to m flt T C).
Proof.
  apply Forall_forall. intros row. unfold Fixed.get_detailed_gaps.
  rewrite in_map_iff. intros [[row' c] [<- Hin]].
  apply ORDER_BY_In, in_flat_map in Hin. destruct Hin as [[g c'] [Hj Hin]].
  apply LEFT_JOIN_In in Hj. destruct Hj as [Hg _].
  apply in_flat_map in Hg. destruct Hg as [k [_ Hg]].
  unfold Fixed.gaps_detail in Hg. apply OVER_In in Hg.
  destruct Hg as [p [[f next] [_ ->]]].
  cbn [fst snd Fixed.d_gap_days Fixed.next_start_date Fixed.d_fill Fixed.d_fill_sequence] in Hin.
  destruct next as [n|]; cbn [option_map] in Hin; [|destruct Hin].
  destruct (m <=? DAYS_BETWEEN (end_date (f_exposure f)) (start_date (f_exposure n)) - 1)
    eqn:E; [|destruct Hin].
  destruct Hin as [Heq|[]]. injection Heq as <- _.
  apply Z.leb_le in E. cbn. unfold ADD_DAYS, DAYS_BETWEEN in *.
  split; [exact E|]. split; [reflexivity|].
  eexists; eexists. repeat split; lia.
Qed.

(** X7: every row that get_detailed_gaps of airms_helper_v3 reports has a
    gap_days that is not negative and at least min_gap_days; a row with a
    positive gap_days has a following fill and its gap_days is the number
    of days from gap_start_date to gap_end_date inclusive. *)
Theorem v3_gap_rows_consistent (MEDIAN : list Z -> Z) (from to : date) (m : Z)
  (flt : bool) (T : list DRUG_EXPOSURE) (C : list CONCEPT) :
  Forall (fun row =>
            m <= gd_gap_days row
            /\ 0 <= gd_gap_days row
            /\ gap_start_date row = fill_before_gap_end_date row + 1
            /\ (0 < gd_gap_days row ->
                exists next ge,
                  fill_after_gap_date row = Some next
                  /\ gap_end_date row = Some ge
                  /\ ge = next - 1
                  /\ gd_gap_days row = DAYS_BETWEEN (gap_start_date row) ge + 1))
         (V3.get_detailed_gaps MEDIAN from to m flt T C).
Proof.
  apply Forall_forall. intros row. unfold V3.get_detailed_gaps.
  rewrite in_map_iff. intros [[row' c] [<- Hin]].
  apply ORDER_BY_In, in_flat_map in Hin. destruct Hin as [[g c'] [Hj Hin]].
  apply LEFT_JOIN_In in Hj. destruct Hj as [Hg _].
  apply in_flat_map in Hg. destruct Hg as [k [_ Hg]].
  unfold V3.gaps_calculated in Hg. apply OVER_In in Hg.
  destruct Hg as [p [[f next] [_ ->]]].
  cbn [fst snd V3.c_gap_days V3.next_start_date V3.c_fill V3.c_fill_sequence] in Hin.
  match type of Hin with
  | In _ (if ?b then _ else _) => destruct b eqn:E; [|destruct Hin]
  end.
  destruct Hin as [Heq|[]]. injection Heq as <- _.
  apply Z.leb_le in E. cbn. unfold ADD_DAYS, DAYS_BETWEEN in *.
  destruct next as [n|]; cbn [option_map] in *.
  - destruct (end_date (f_exposure f) <? start_date (f_exposure n)) eqn:En;
      [apply Z.ltb_lt in En | apply Z.ltb_ge in En].
    + repeat split; try lia. intros _. eexists; eexists. repeat split; lia.
    + repeat split; try lia.
  - repeat split; try lia.
Qed.

(** ** Merged periods of airms_helper_fixed *)

Lemma scan_covers (t : list (date * date)) :
  forall (g : Z) (cs ce : date) (n : Z) (d : date),
    ordered t -> (forall y, In y t -> cs <= fst y) ->
    ((exists p, In p (scan g cs ce n t) /\ period_covers p d)
     <-> (cs <= d <= ce \/ exists r, In r t /\ covers r d)).
Proof.
  unfold period_covers, covers.
  induction t as [|[s e] t IH]; intros g cs ce n d Hord Hcs.
  - simpl. split.
    + intros [p [[<-|[]] Hp]]. left. exact Hp.
    + intros [H|[r [[] _]]]. eexists. split; [left; reflexivity | exact H].
  - apply ordered_tail in Hord. destruct Hord as [Hord Hle]. simpl in Hle.
    assert (Hs : cs <= s) by (apply (Hcs (s, e)); left; reflexivity).
    cbn [scan]. destruct (s <=? ce + 1) eqn:E.
    + apply Z.leb_le in E. rewrite IH; [|exact Hord|].
      * split.
        -- intros [H|[r [Hr Hd]]].
           ++ destruct (Z.le_gt_cases d ce); [left; lia|].
              right. exists (s, e). split; [left; reflexivity | simpl; lia].
           ++ right. exists r. split; [right; exact Hr | exact Hd].
        -- intros [H|[r [[<-|Hr] Hd]]].
           ++ left. lia.
           ++ left. simpl in Hd. lia.
           ++ right. exists r. split; assumption.
      * intros y Hy. apply Hcs. right. exact Hy.
    + apply Z.leb_gt in E. split.
      * intros [p [[<-|Hp] Hd]].
        -- left. exact Hd.
        -- assert (H : exists p, In p (scan (g + 1) s e 1 t)
                                 /\ Fixed.period_start p <= d <= Fixed.period_end p)
             by (exists p; split; assumption).
           apply (IH (g + 1) s e 1 d Hord Hle) in H.
           right. destruct H as [H|[r [Hr Hd']]].
           ++ exists (s, e). split; [left; reflexivity | exact H].
           ++ exists r. split; [right; exact Hr | exact Hd'].
      * intros [H|[r [[<-|Hr] Hd]]].
        -- eexists. split; [left; reflexivity | exact H].
        -- assert (H : exists p, In p (scan (g + 1) s e 1 t)
                                 /\ Fixed.period_start p <= d <= Fixed.period_end p).
           { apply (IH (g + 1) s e 1 d Hord Hle). left. exact Hd. }
           destruct H as [p [Hp Hd']]. exists p. split; [right; exact Hp | exact Hd'].
        -- assert (H : exists p, In p (scan (g + 1) s e 1 t)
                                 /\ Fixed.period_start p <= d <= Fixed.period_end p).
           { apply (IH (g + 1) s e 1 d Hord Hle). right. exists r. split; assumption. }
           destruct H as [p [Hp Hd']]. exists p. split; [right; exact Hp | exact Hd'].
Qed.

(** X8: the merged periods of a group cover exactly the days its intervals
    cover: a day lies in some merged period if and only if it lies in some
    interval of the group. *)
Theorem merged_periods_cover_the_intervals (l : list (date * date)) (d : date) :
  (exists p, In p (Fixed.merged_periods (Fixed.coverage_groups l)) /\ period_covers p d)
  <-> (exists r, In r l /\ covers r d).
Proof.
  rewrite merged_periods_coverage_groups.
  pose proof (ordered_ORDER_BY l) as Hord.
  assert (Hperm : forall r, In r l <-> In r (ORDER_BY by_start_end l))
    by (intro r; symmetry; apply ORDER_BY_In).
  destruct (ORDER_BY by_start_end l) as [|[s e] t].
  - split.
    + intros [p [[] _]].
    + intros [r [Hr _]]. apply Hperm in Hr. destruct Hr.
  - apply ordered_tail in Hord. destruct Hord as [Hord Hle]. simpl in Hle.
    rewrite scan_covers by assumption. split.
    + intros [H|[r [Hr Hd]]].
      * exists (s, e). split; [apply Hperm; left; reflexivity | exact H].
      * exists r. split; [apply Hperm; right; exact Hr | exact Hd].
    + intros [r [Hr Hd]]. apply Hperm in Hr. destruct Hr as [<-|Hr].
      * left. exact Hd.
      * right. exists r. split; assumption.
Qed.

Lemma scan_fills (t : list (date * date)) (g : Z) (cs ce : date) (n : Z) :
  SUM (map Fixed.num_fills (scan g cs ce n t)) = n + COUNT t.
Proof.
  unfold COUNT. revert g cs ce n.
  induction t as [|[s e] t IH]; intros g cs ce n; cbn [scan].
  - unfold SUM. simpl. lia.
  - destruct (s <=? ce + 1).
    + rewrite IH. cbn [length]. lia.
    + cbn [map]. unfold SUM in *. cbn [fold_right Fixed.num_fills]. rewrite IH.
      cbn [length]. lia.
Qed.

Lemma scan_gap_count (t : list (date * date)) (g : Z) (cs ce : date) (n : Z) :
  SUM (map (fun x => if 0 <? Fixed.gap_days x then 1 else 0)
           (map Fixed.gap_to_next (LEAD (scan g cs ce n t))))
  = COUNT (scan g cs ce n t) - 1.
Proof.
  unfold COUNT. revert g cs ce n.
  induction t as [|[s e] t IH]; intros g cs ce n; cbn [scan].
  - unfold SUM. simpl. reflexivity.
  - destruct (s <=? ce + 1) eqn:E; [apply IH|].
    apply Z.leb_gt in E. specialize (IH (g + 1) s e 1).
    destruct (scan_head t (g + 1) s e 1) as [p [rest [Hp Hps]]].
    rewrite Hp in *. cbn [LEAD map hd_error length] in *.
    unfold SUM in *. cbn [fold_right] in *. rewrite IH.
    unfold Fixed.gap_to_next at 1. cbn [Fixed.gap_days fst snd Fixed.period_end].
    unfold DAYS_BETWEEN. rewrite Hps.
    replace (0 <? s - ce - 1) with true by (symmetry; apply Z.ltb_lt; lia).
    lia.
Qed.

Lemma scan_count (t : list (date * date)) (g : Z) (cs ce : date) (n : Z) :
  1 <= COUNT (scan g cs ce n t) <= 1 + COUNT t.
Proof.
  unfold COUNT. revert g cs ce n.
  induction t as [|[s e] t IH]; intros g cs ce n; cbn [scan].
  - simpl. lia.
  - destruct (s <=? ce + 1).
    + specialize (IH g cs (Z.max ce e) (n + 1)). cbn [length]. lia.
    + specialize (IH (g + 1) s e 1). cbn [length]. lia.
Qed.

Lemma indicator_le_sum (l : list Z) :
  Forall (fun x => 0 <= x) l ->
  SUM (map (fun x => if 0 <? x then 1 else 0) l) <= SUM l.
Proof.
  unfold SUM. induction 1 as [|x t Hx _ IH]; simpl; [lia|].
  destruct (0 <? x) eqn:E; [apply Z.ltb_lt in E|]; lia.
Qed.

Lemma patient_drug_pdc_row_counts (k : Z * Z) (gs : list Fixed.gap_row) (r : Fixed.pdc_row) :
  Fixed.patient_drug_pdc_row k gs = Some r ->
  Fixed.num_gaps r = SUM (map (fun x => if 0 <? Fixed.gap_days x then 1 else 0) gs)
  /\ Fixed.total_gap_days r = SUM (map Fixed.gap_days gs)
  /\ Fixed.num_periods r = COUNT gs
  /\ Fixed.total_fills r = SUM (map (fun x => Fixed.num_fills (Fixed.g_period x)) gs).
Proof.
  destruct gs as [|g t]; simpl; [discriminate|].
  intro H. injection H as <-. simpl. repeat split; reflexivity.
Qed.

Lemma fixed_group_counts (k : Z * Z) (l : list (date * date)) (r : Fixed.pdc_row) :
  Fixed.aggregate k l = Some r ->
  Fixed.total_fills r = COUNT l
  /\ Fixed.num_gaps r = Fixed.num_periods r - 1
  /\ 1 <= Fixed.num_periods r <= COUNT l
  /\ Fixed.num_gaps r <= Fixed.total_gap_days r.
Proof.
  intro Hr. unfold Fixed.aggregate in Hr.
  assert (Hlen : COUNT l = COUNT (ORDER_BY by_start_end l)).
  { unfold COUNT. f_equal. apply Permutation_length, ORDER_BY_perm. }
  pose proof (ordered_ORDER_BY l) as Hord.
  rewrite merged_periods_coverage_groups in Hr.
  destruct (ORDER_BY by_start_end l) as [|[s e] t]; [discriminate|].
  apply ordered_tail in Hord. destruct Hord as [Hord Hle]. simpl in Hle.
  set (g := if s <=? TO_DATE 1900 1 1 + 1 then 0 else 1) in Hr.
  rewrite (gaps_of_scan t g s e 1 Hord Hle) in Hr.
  apply patient_drug_pdc_row_counts in Hr. destruct Hr as [Hg [Htg [Hp Hf]]].
  rewrite Hg, Htg, Hp, Hf, Hlen.
  rewrite map_over_gaps, scan_fills, scan_gap_count.
  assert (Hc : COUNT (map Fixed.gap_to_next (LEAD (scan g s e 1 t)))
               = COUNT (scan g s e 1 t)).
  { unfold COUNT. rewrite length_map. rewrite <- (LEAD_fst (scan g s e 1 t)) at 2.
    rewrite length_map. reflexivity. }
  rewrite Hc. pose proof (scan_count t g s e 1) as Hcount.
  assert (Hcons : COUNT ((s, e) :: t) = 1 + COUNT t)
    by (unfold COUNT; cbn [length]; lia).
  rewrite Hcons. repeat split; try lia.
  rewrite <- scan_gap_count.
  rewrite <- (map_map Fixed.gap_days (fun x => if 0 <? x then 1 else 0)).
  apply indicator_le_sum.
  pose proof (scan_gaps_positive t g s e 1) as Hpos.
  rewrite Forall_forall in *. intros x Hx.
  apply in_map_iff in Hx. destruct Hx as [y [<- Hy]]. apply Hpos, Hy.
Qed.



(** ** The two coverage accountings compared *)

Lemma LAG_snoc {A} (l : list A) (x : A) : LAG (l ++ [x]) = Some x.
Proof. unfold LAG. rewrite rev_unit. reflexivity. Qed.

Lemma COUNT_snoc {A} (l : list A) (x : A) : COUNT (l ++ [x]) = COUNT l + 1.
Proof. unfold COUNT. rewrite length_app. simpl. lia. Qed.

Lemma exposure_with_gaps_lag_rows (l : list (date * date)) :
  V3.exposure_with_gaps l = lag_rows None 0 (ORDER_BY by_start_end l).
Proof.
  unfold V3.exposure_with_gaps. generalize (ORDER_BY by_start_end l) as t. intro t.
  match goal with
  | |- OVER ?f [] t = _ =>
      enough (H : forall preceding,
                 OVER f preceding t
                 = lag_rows (LAG (map snd preceding)) (COUNT preceding) t)
        by exact (H [])
  end.
  induction t as [|[s e] t IH]; intro preceding; [reflexivity|].
  cbn [OVER lag_rows fst snd]. f_equal.
  rewrite IH, map_app, COUNT_snoc. cbn [map snd]. rewrite LAG_snoc. reflexivity.
Qed.

Lemma lag_rows_columns (t : list (date * date)) (prev : option date) (k : Z) :
  map V3.w_start_date (lag_rows prev k t) = map fst t
  /\ map V3.w_end_date (lag_rows prev k t) = map snd t
  /\ COUNT (lag_rows prev k t) = COUNT t.
Proof.
  unfold COUNT. revert prev k. induction t as [|[s e] t IH]; intros prev k; [repeat split|].
  destruct (IH (Some e) (k + 1)) as [H1 [H2 H3]].
  cbn [lag_rows map length fst snd V3.w_start_date V3.w_end_date].
  rewrite H1, H2. repeat split. lia.
Qed.

(** Against the scan of the fixed variant, started in a period [cs, ce]
    with the previous row ending on [p <= ce]: the LAG accounting counts at
    least the days the scan adds, and at least its gap days. *)
Lemma lag_rows_overstate (t : list (date * date)) :
  forall (g : Z) (cs ce : date) (n : Z) (p : date) (k : Z),
    Forall well_formed t -> p <= ce ->
    SUM (map Fixed.days_covered (scan g cs ce n t)) - (DAYS_BETWEEN cs ce + 1)
    <= SUM (map V3.adjusted_days_covered (lag_rows (Some p) k t))
    /\ SUM (map Fixed.gap_days (map Fixed.gap_to_next (LEAD (scan g cs ce n t))))
       <= SUM (map V3.gap_days (lag_rows (Some p) k t)).
Proof.
  induction t as [|[s e] t IH]; intros g cs ce n p k Hwf Hp.
  - unfold SUM. simpl. lia.
  - inversion Hwf as [|? ? Hse Hwf']; subst. unfold well_formed in Hse. simpl in Hse.
    cbn [scan lag_rows map].
    unfold SUM in *. cbn [fold_right V3.adjusted_days_covered V3.gap_days].
    unfold GREATEST, DAYS_BETWEEN in *.
    destruct (s <=? ce + 1) eqn:E; [apply Z.leb_le in E | apply Z.leb_gt in E].
    + destruct (IH g cs (Z.max ce e) (n + 1) e (k + 1) Hwf' ltac:(lia)) as [H1 H2].
      destruct (s <=? p) eqn:E1; [apply Z.leb_le in E1 | apply Z.leb_gt in E1];
        destruct (p <? s) eqn:E2; [apply Z.ltb_lt in E2 | apply Z.ltb_ge in E2
                                  | apply Z.ltb_lt in E2 | apply Z.ltb_ge in E2]; lia.
    + destruct (IH (g + 1) s e 1 e (k + 1) Hwf' ltac:(lia)) as [H1 H2].
      destruct (scan_head t (g + 1) s e 1) as [q [rest [Hq Hqs]]].
      rewrite Hq in *. cbn [LEAD map hd_error fold_right] in *.
      unfold Fixed.gap_to_next at 1. cbn [Fixed.gap_days Fixed.days_covered fst snd Fixed.period_end].
      unfold DAYS_BETWEEN. rewrite Hqs.
      replace (s <=? p) with false by (symmetry; apply Z.leb_gt; lia).
      replace (p <? s) with true by (symmetry; apply Z.ltb_lt; lia).
      lia.
Qed.

(** When no fill ends before the one that precedes it, the two accountings
    agree row by row. *)
Lemma lag_rows_agree (t : list (date * date)) :
  forall (g : Z) (cs ce : date) (n : Z) (k : Z),
    Sorted (fun a b => snd a <= snd b) ((cs, ce) :: t) ->
    SUM (map Fixed.days_covered (scan g cs ce n t)) - (DAYS_BETWEEN cs ce + 1)
    = SUM (map V3.adjusted_days_covered (lag_rows (Some ce) k t))
    /\ SUM (map Fixed.gap_days (map Fixed.gap_to_next (LEAD (scan g cs ce n t))))
       = SUM (map V3.gap_days (lag_rows (Some ce) k t))
    /\ SUM (map (fun x => if 0 <? Fixed.gap_days x then 1 else 0)
                (map Fixed.gap_to_next (LEAD (scan g cs ce n t))))
       = SUM (map (fun x => if 0 <? V3.gap_days x then 1 else 0)
                  (lag_rows (Some ce) k t)).
Proof.
  induction t as [|[s e] t IH]; intros g cs ce n k Hs.
  - unfold SUM. simpl. lia.
  - inversion Hs as [|? ? Hs' Hhd]; subst. inversion Hhd as [|? ? Hce]; subst.
    simpl in Hce.
    assert (Hnext : forall c, Sorted (fun a b => snd a <= snd b) ((c, e) :: t)).
    { intro c. inversion Hs' as [|? ? Hs'' Hhd']; subst. constructor; [exact Hs''|].
      inversion Hhd'; constructor. assumption. }
    cbn [scan lag_rows map].
    unfold SUM in *. cbn [fold_right V3.adjusted_days_covered V3.gap_days].
    unfold GREATEST, DAYS_BETWEEN in *.
    destruct (s <=? ce + 1) eqn:E; [apply Z.leb_le in E | apply Z.leb_gt in E].
    + replace (Z.max ce e) with e by lia.
      destruct (IH g cs e (n + 1) (k + 1) (Hnext cs)) as [H1 [H2 H3]].
      rewrite <- H1, <- H2, <- H3.
      destruct (s <=? ce) eqn:E1; [apply Z.leb_le in E1 | apply Z.leb_gt in E1];
        destruct (ce <? s) eqn:E2; [apply Z.ltb_lt in E2 | apply Z.ltb_ge in E2
                                   | apply Z.ltb_lt in E2 | apply Z.ltb_ge in E2];
        try lia.
      * replace (0 <? 0) with false by reflexivity. lia.
      * replace (0 <? s - ce - 1) with false by (symmetry; apply Z.ltb_ge; lia). lia.
    + destruct (IH (g + 1) s e 1 (k + 1) (Hnext s)) as [H1 [H2 H3]].
      destruct (scan_head t (g + 1) s e 1) as [q [rest [Hq Hqs]]].
      rewrite Hq in *. cbn [LEAD map hd_error fold_right] in *.
      match goal with
      | |- context [Fixed.gap_to_next (?p0, Some q)] =>
          assert (Hgap : Fixed.gap_days (Fixed.gap_to_next (p0, Some q)) = s - ce - 1)
            by (unfold Fixed.gap_to_next, DAYS_BETWEEN; simpl; rewrite Hqs; reflexivity)
      end.
      rewrite !Hgap. cbn [Fixed.days_covered]. unfold DAYS_BETWEEN.
      replace (s <=? ce) with false by (symmetry; apply Z.leb_gt; lia).
      replace (ce <? s) with true by (symmetry; apply Z.ltb_lt; lia).
      replace (0 <? s - ce - 1) with true by (symmetry; apply Z.ltb_lt; lia).
      rewrite <- H1, <- H2, <- H3. lia.
Qed.

Lemma last_end_is_max (t : list (date * date)) (ce : date) :
  Forall well_formed t -> last_end ce t = MAX1 ce (map snd t).
Proof.
  revert ce. induction t as [|[s e] t IH]; intros ce Hwf; [reflexivity|].
  inversion Hwf as [|? ? Hse Hwf']; subst. unfold well_formed in Hse. simpl in Hse.
  cbn [last_end map snd]. unfold MAX1 in *. cbn [fold_left].
  destruct (s <=? ce + 1) eqn:E; [apply IH, Hwf'|].
  apply Z.leb_gt in E. rewrite IH by exact Hwf'.
  replace (Z.max ce e) with e by lia. reflexivity.
Qed.

Lemma v3_summary_row_fields (k : Z * Z) (w : V3.exposure_gap) (ws : list V3.exposure_gap) :
  exists r,
    V3.patient_drug_summary_row k (w :: ws) = Some r
    /\ V3.total_days_covered r = SUM (map V3.adjusted_days_covered (w :: ws))
    /\ V3.total_gap_days r = SUM (map V3.gap_days (w :: ws))
    /\ V3.num_gaps r = SUM (map (fun x => if 0 <? V3.gap_days x then 1 else 0) (w :: ws))
    /\ V3.total_fills r = COUNT (w :: ws)
    /\ V3.first_exposure_date r = MIN1 (V3.w_start_date w) (map V3.w_start_date ws)
    /\ V3.last_exposure_date r = MAX1 (V3.w_end_date w) (map V3.w_end_date ws)
    /\ V3.treatment_duration r
       = DAYS_BETWEEN (V3.first_exposure_date r) (V3.last_exposure_date r) + 1.
Proof. eexists. split; [reflexivity|]. simpl. repeat split; reflexivity. Qed.

(** The two summary rows of a group of well-formed intervals, side by
    side. *)
Lemma summaries_side_by_side (k : Z * Z) (l : list (date * date))
  (rf : Fixed.pdc_row) (rv : V3.pdc_row) :
  Forall well_formed l ->
  Fixed.aggregate k l = Some rf ->
  V3.aggregate k l = Some rv ->
  exists s e t g,
    ORDER_BY by_start_end l = (s, e) :: t
    /\ Forall well_formed t
    /\ V3.first_exposure_date rv = Fixed.first_exposure_date rf
    /\ V3.last_exposure_date rv = Fixed.last_exposure_date rf
    /\ V3.treatment_duration rv = Fixed.treatment_duration rf
    /\ V3.total_fills rv = Fixed.total_fills rf
    /\ Fixed.total_days_covered rf = SUM (map Fixed.days_covered (scan g s e 1 t))
    /\ Fixed.total_gap_days rf
       = SUM (map Fixed.gap_days (map Fixed.gap_to_next (LEAD (scan g s e 1 t))))
    /\ Fixed.num_gaps rf
       = SUM (map (fun x => if 0 <? Fixed.gap_days x then 1 else 0)
                  (map Fixed.gap_to_next (LEAD (scan g s e 1 t))))
    /\ V3.total_days_covered rv
       = DAYS_BETWEEN s e + 1 + SUM (map V3.adjusted_days_covered (lag_rows (Some e) 1 t))
    /\ V3.total_gap_days rv = SUM (map V3.gap_days (lag_rows (Some e) 1 t))
    /\ V3.num_gaps rv
       = SUM (map (fun x => if 0 <? V3.gap_days x then 1 else 0) (lag_rows (Some e) 1 t)).
Proof.
  intros Hwf Hf Hv.
  destruct l as [|x l']; [discriminate|].
  destruct (ORDER_BY_nonempty (x :: l')) as [s [e [t Hl]]]; [discriminate|].
  destruct (fixed_aggregate_ordered k _ s e t Hl) as [rf' [Hf' [_ [_ [Hfirst [_ Hlast]]]]]].
  rewrite Hf in Hf'. injection Hf' as <-. specialize (Hlast Hwf).
  pose proof (fixed_group_counts k _ rf Hf) as [Hfills _].
  assert (Hall : Forall well_formed ((s, e) :: t)).
  { rewrite <- Hl. eapply Permutation_Forall; [apply ORDER_BY_perm | exact Hwf]. }
  assert (Hwft : Forall well_formed t) by (inversion Hall; assumption).
  pose proof (ordered_ORDER_BY (x :: l')) as Hord. rewrite Hl in Hord.
  apply ordered_tail in Hord. destruct Hord as [Hord Hle]. simpl in Hle.
  pose proof Hf as Hf2. unfold Fixed.aggregate in Hf2.
  rewrite merged_periods_coverage_groups, Hl in Hf2.
  set (g := if s <=? TO_DATE 1900 1 1 + 1 then 0 else 1) in Hf2.
  rewrite (gaps_of_scan t g s e 1 Hord Hle) in Hf2.
  pose proof (patient_drug_pdc_row_counts _ _ _ Hf2) as [Hng [Htg _]].
  destruct (scan_head t g s e 1) as [p [rest [Hp _]]].
  assert (Hcov : Fixed.total_days_covered rf = SUM (map Fixed.days_covered (scan g s e 1 t))).
  { rewrite Hp in *.
    destruct (patient_drug_pdc_row_periods k p rest) as [r' [Hr' [Hc _]]].
    rewrite Hf2 in Hr'. injection Hr' as <-. exact Hc. }
  unfold V3.aggregate in Hv. rewrite exposure_with_gaps_lag_rows, Hl in Hv.
  cbn [lag_rows] in Hv.
  match type of Hv with
  | V3.patient_drug_summary_row _ (?w :: ?ws) = _ =>
      destruct (v3_summary_row_fields k w ws)
        as [rv' [Hv' [Hvc [Hvg [Hvn [Hvf [Hv1 [Hv2 Hvtd]]]]]]]]
  end.
  rewrite Hv in Hv'. injection Hv' as <-.
  destruct (lag_rows_columns t (Some e) (0 + 1)) as [Hs [He Hn]].
  cbn [V3.w_start_date V3.w_end_date] in Hv1, Hv2. rewrite Hs in Hv1. rewrite He in Hv2.
  assert (Hv1' : V3.first_exposure_date rv = s).
  { rewrite Hv1. apply MIN1_lower. intros y Hy.
    apply in_map_iff in Hy. destruct Hy as [r [<- Hr]]. apply Hle, Hr. }
  assert (Hv2' : V3.last_exposure_date rv = last_end e t)
    by (rewrite Hv2; symmetry; apply last_end_is_max, Hwft).
  apply patient_drug_pdc_row_shape in Hf. destruct Hf as [_ [_ [Htd _]]].
  exists s, e, t, g. split; [exact Hl|]. split; [exact Hwft|].
  split; [congruence|]. split; [congruence|]. split; [congruence|].
  split.
  { rewrite Hvf, Hfills.
    assert (Hxl : COUNT (x :: l') = 1 + COUNT t).
    { unfold COUNT. rewrite (Permutation_length (ORDER_BY_perm by_start_end (x :: l'))), Hl.
      cbn [length]. lia. }
    rewrite Hxl. unfold COUNT in *. cbn [length]. lia. }
  split; [exact Hcov|]. split; [exact Htg|]. split; [exact Hng|].
  unfold SUM in *. cbn [map fold_right V3.adjusted_days_covered V3.gap_days] in Hvc, Hvg, Hvn.
  change (0 <? 0) with false in Hvn. cbn iota in Hvn.
  repeat split; [rewrite Hvc | rewrite Hvg | rewrite Hvn]; try reflexivity; lia.
Qed.

(** X10: on a group of well-formed intervals the two helpers report the
    same first and last exposure dates, treatment duration and number of
    fills, and airms_helper_v3 never reports fewer covered days or fewer
    gap days than airms_helper_fixed: its LAG accounting errs on one
    side. *)
Theorem v3_never_understates (k : Z * Z) (l : list (date * date))
  (rf : Fixed.pdc_row) (rv : V3.pdc_row) :
  Forall well_formed l ->
  Fixed.aggregate k l = Some rf ->
  V3.aggregate k l = Some rv ->
  V3.first_exposure_date rv = Fixed.first_exposure_date rf
  /\ V3.last_exposure_date rv = Fixed.last_exposure_date rf
  /\ V3.treatment_duration rv = Fixed.treatment_duration rf
  /\ V3.total_fills rv = Fixed.total_fills rf
  /\ Fixed.total_days_covered rf <= V3.total_days_covered rv
  /\ Fixed.total_gap_days rf <= V3.total_gap_days rv.
Proof.
  intros Hwf Hf Hv.
  destruct (summaries_side_by_side k l rf rv Hwf Hf Hv)
    as [s [e [t [g [_ [Hwft [H1 [H2 [H3 [H4 [Hfc [Hfg [_ [Hvc [Hvg _]]]]]]]]]]]]]]].
  destruct (lag_rows_overstate t g s e 1 e 1 Hwft (Z.le_refl e)) as [Hc Hg].
  repeat split; try assumption.
  - rewrite Hfc, Hvc. lia.
  - rewrite Hfg, Hvg. exact Hg.
Qed.

Lemma v3_never_understates_witness :
  option_map Fixed.total_days_covered (Fixed.aggregate (1, 1000) overlapping_intervals)
  = Some 200
  /\ option_map V3.total_days_covered (V3.aggregate (1, 1000) overlapping_intervals)
     = Some 210
  /\ 200 <= 210.
Proof.
  destruct (Fixed.aggregate (1, 1000) overlapping_intervals) as [rf|] eqn:Ef;
    [|vm_compute in Ef; discriminate].
  destruct (V3.aggregate (1, 1000) overlapping_intervals) as [rv|] eqn:Ev;
    [|vm_compute in Ev; discriminate].
  assert (Hwf : Forall well_formed overlapping_intervals)
    by (unfold overlapping_intervals, well_formed; repeat constructor; vm_compute; discriminate).
  pose proof (v3_never_understates (1, 1000) overlapping_intervals rf rv Hwf Ef Ev)
    as [_ [_ [_ [_ [Hle _]]]]].
  vm_compute in Ef. vm_compute in Ev. injection Ef as <-. injection Ev as <-.
  simpl in *. repeat split. exact Hle.
Defined.

(** X11: on a group of well-formed intervals in which no fill ends before
    the fill that precedes it in (start_date, end_date) order, the two
    helpers report the same covered days, gap days, number of gaps and
    ratio, and the gap days and covered days of airms_helper_v3 add up to
    its treatment duration. *)
Theorem variants_agree_without_contained_fills (k : Z * Z) (l : list (date * date))
  (rf : Fixed.pdc_row) (rv : V3.pdc_row) :
  Forall well_formed l ->
  ends_ascend (ORDER_BY by_start_end l) ->
  Fixed.aggregate k l = Some rf ->
  V3.aggregate k l = Some rv ->
  V3.total_days_covered rv = Fixed.total_days_covered rf
  /\ V3.total_gap_days rv = Fixed.total_gap_days rf
  /\ V3.num_gaps rv = Fixed.num_gaps rf
  /\ V3.pdc rv = Fixed.pdc rf
  /\ V3.total_gap_days rv + V3.total_days_covered rv = V3.treatment_duration rv.
Proof.
  intros Hwf Hasc Hf Hv.
  destruct (summaries_side_by_side k l rf rv Hwf Hf Hv)
    as [s [e [t [g [Hl [_ [_ [_ [Htd [_ [Hfc [Hfg [Hfn [Hvc [Hvg Hvn]]]]]]]]]]]]]]].
  unfold ends_ascend in Hasc. rewrite Hl in Hasc.
  destruct (lag_rows_agree t g s e 1 1 Hasc) as [Hc [Hg Hn]].
  assert (Hcov : V3.total_days_covered rv = Fixed.total_days_covered rf)
    by (rewrite Hfc, Hvc; lia).
  assert (Hgap : V3.total_gap_days rv = Fixed.total_gap_days rf) by congruence.
  split; [exact Hcov|]. split; [exact Hgap|]. split; [congruence|].
  pose proof (fixed_coverage_partition k l rf Hwf Hf) as Hpart.
  unfold V3.aggregate in Hv. apply v3_summary_row_shape in Hv. destruct Hv as [_ [_ Hvp]].
  apply patient_drug_pdc_row_shape in Hf. destruct Hf as [_ [_ [_ Hfp]]].
  split; [rewrite Hvp, Hfp, Hcov, Htd; reflexivity | lia].
Qed.

Lemma variants_agree_without_contained_fills_witness :
  option_map V3.total_days_covered (V3.aggregate (1, 1000) three_fills)
  = option_map Fixed.total_days_covered (Fixed.aggregate (1, 1000) three_fills).
Proof.
  destruct (Fixed.aggregate (1, 1000) three_fills) as [rf|] eqn:Ef;
    [|vm_compute in Ef; discriminate].
  destruct (V3.aggregate (1, 1000) three_fills) as [rv|] eqn:Ev;
    [|vm_compute in Ev; discriminate].
  simpl. f_equal.
  apply (variants_agree_without_contained_fills (1, 1000) three_fills rf rv).
  - unfold three_fills, well_formed. repeat constructor; vm_compute; discriminate.
  - unfold ends_ascend. vm_compute ORDER_BY.
    repeat constructor; vm_compute; discriminate.
  - exact Ef.
  - exact Ev.
Defined.

(** ** One row per group *)

Lemma flat_map_keyed_NoDup {A K} (key : A -> K) (F : K -> list A) (ks : list K) :
  NoDup ks ->
  (forall k a, In a (F k) -> key a = k) ->
  (forall k, (length (F k) <= 1)%nat) ->
  NoDup (map key (flat_map F ks)).
Proof.
  intros Hnd Hkey Hone. induction Hnd as [|k t Hk Hnd IH]; simpl; [constructor|].
  rewrite map_app. specialize (Hone k).
  destruct (F k) as [|a [|b q]] eqn:E; simpl in *; [exact IH | | lia].
  constructor; [|exact IH].
  rewrite (Hkey k a) by (rewrite E; left; reflexivity).
  intro Hin. apply in_map_iff in Hin. destruct Hin as [x [Hx Hin]].
  apply in_flat_map in Hin. destruct Hin as [k' [Hk' Hin]].
  apply Hkey in Hin. congruence.
Qed.

Lemma filter_unique_key {B} (f : B -> Z) (d : Z) (r : list B) :
  NoDup (map f r) -> (length (filter (fun c => (d =? f c)%Z) r) <= 1)%nat.
Proof.
  induction r as [|c t IH]; intro Hnd; simpl; [lia|].
  inversion Hnd as [|? ? Hc Hnd']; subst.
  destruct (Z.eqb_spec d (f c)) as [->|Hne]; [|apply IH, Hnd'].
  rewrite filter_none; [simpl; lia|].
  intros x Hx. apply Z.eqb_neq. intro Heq. apply Hc.
  rewrite Heq. apply in_map, Hx.
Qed.

Lemma LEFT_JOIN_fst {A B} (on : A -> B -> bool) (l : list A) (r : list B) :
  (forall a, (length (filter (on a) r) <= 1)%nat) ->
  map fst (LEFT_JOIN on l r) = l.
Proof.
  intro Hone. unfold LEFT_JOIN. induction l as [|a t IH]; [reflexivity|].
  cbn [flat_map]. rewrite map_app, IH. specialize (Hone a).
  destruct (filter (on a) r) as [|b [|b' q]]; simpl in *; try reflexivity. lia.
Qed.

Lemma NoDup_map_filter {A K} (f : A -> K) (p : A -> bool) (l : list A) :
  NoDup (map f l) -> NoDup (map f (filter p l)).
Proof.
  induction l as [|a t IH]; intro Hnd; simpl; [constructor|].
  inversion Hnd as [|? ? Ha Hnd']; subst.
  destruct (p a); simpl; [|apply IH, Hnd'].
  constructor; [|apply IH, Hnd'].
  intro Hin. apply Ha. apply in_map_iff in Hin. destruct Hin as [x [Hx Hin]].
  apply filter_In in Hin. rewrite <- Hx. apply in_map, Hin.
Qed.

Lemma fixed_summaries_NoDup (cleaned : list exposure) :
  NoDup (map (fun p => (Fixed.pr_person_id p, Fixed.pr_drug_concept_id p))
             (Fixed.patient_drug_pdc cleaned)).
Proof.
  unfold Fixed.patient_drug_pdc. apply flat_map_keyed_NoDup.
  - unfold partition_keys, DISTINCT2. apply NoDup_nodup.
  - intros k a Ha.
    destruct (Fixed.aggregate k (partition_of k cleaned)) as [r|] eqn:E; [|destruct Ha].
    destruct Ha as [<-|[]]. unfold Fixed.aggregate in E.
    apply patient_drug_pdc_row_shape in E. destruct E as [H1 [H2 _]].
    rewrite H1, H2. destruct k; reflexivity.
  - intro k. destruct (Fixed.aggregate k (partition_of k cleaned)); simpl; lia.
Qed.

(** X12: when CONCEPT has at most one row for each concept_id, the result
    of calculate_pdc_server_side of airms_helper_fixed has at most one row
    for each (person_id, drug_concept_id), and every row has a treatment
    duration of at least min_treatment_days. *)
Theorem fixed_one_row_per_group (from to : date) (m : Z) (flt : bool)
  (T : list DRUG_EXPOSURE) (C : list CONCEPT) :
  NoDup (map concept_id C) ->
  NoDup (map fixed_row_key (Fixed.calculate_pdc_server_side from to m flt T C))
  /\ Forall (fun row => m <= Fixed.treatment_duration (Fixed.r_summary row))
            (Fixed.calculate_pdc_server_side from to m flt T C).
Proof.
  intro HC. split.
  - unfold Fixed.calculate_pdc_server_side.
    set (joined := LEFT_JOIN _ _ C).
    set (key := fun p => (Fixed.pr_person_id p, Fixed.pr_drug_concept_id p)).
    set (key' := fun pc : Fixed.pdc_row * option CONCEPT => key (fst pc)).
    assert (Hfst : map fst joined
                   = Fixed.patient_drug_pdc (Fixed.drug_exposures_cleaned from to flt T)).
    { apply LEFT_JOIN_fst. intro p. apply (filter_unique_key concept_id), HC. }
    rewrite map_map. rewrite (map_ext _ key') by (intro pc; reflexivity).
    eapply Permutation_NoDup; [apply Permutation_map, ORDER_BY_perm|].
    apply NoDup_map_filter.
    assert (E : map key' joined = map key (map fst joined))
      by (rewrite map_map; reflexivity).
    rewrite E, Hfst. apply fixed_summaries_NoDup.
  - apply Forall_forall. intros row Hrow. apply fixed_row_origin in Hrow.
    destruct Hrow as [c [_ [Hm _]]]. exact Hm.
Qed.

Lemma fixed_one_row_per_group_witness :
  NoDup (map fixed_row_key
           (Fixed.calculate_pdc_server_side (TO_DATE 2020 1 1) (TO_DATE 2020 12 31)
              30 false contained_fills drug_concepts)).
Proof.
  apply (fixed_one_row_per_group (TO_DATE 2020 1 1) (TO_DATE 2020 12 31) 30 false
           contained_fills drug_concepts).
  simpl. repeat constructor. intros [].
Defined.

(** ** The division guard on well-formed data *)

Lemma scan_days_at_least_count (t : list (date * date)) (g : Z) (cs ce : date) (n : Z) :
  Forall well_formed t -> cs <= ce ->
  COUNT (scan g cs ce n t) <= SUM (map Fixed.days_covered (scan g cs ce n t)).
Proof.
  unfold COUNT, SUM. revert g cs ce n.
  induction t as [|[s e] t IH]; intros g cs ce n Hwf Hc; cbn [scan].
  - simpl. unfold DAYS_BETWEEN. lia.
  - inversion Hwf as [|? ? Hse Hwf']; subst. unfold well_formed in Hse. simpl in Hse.
    destruct (s <=? ce + 1).
    + apply IH; [exact Hwf' | lia].
    + cbn [map fold_right length Fixed.days_covered].
      specialize (IH (g + 1) s e 1 Hwf' Hse). unfold DAYS_BETWEEN. lia.
Qed.

(** X13: for a group of well-formed intervals airms_helper_fixed reports at
    least one covered day per merged period and at most the treatment
    duration, so the treatment duration is positive, the division guard
    never takes its ELSE branch, and pdc lies between 0 and 1. *)
Theorem fixed_guard_never_fires (k : Z * Z) (l : list (date * date)) (r : Fixed.pdc_row) :
  Forall well_formed l ->
  Fixed.aggregate k l = Some r ->
  1 <= Fixed.num_periods r <= Fixed.total_days_covered r
  /\ Fixed.total_days_covered r <= Fixed.treatment_duration r
  /\ Fixed.pdc r = ROUND4_div (Fixed.total_days_covered r) (Fixed.treatment_duration r)
  /\ 0 <= Fixed.pdc r <= 10000.
Proof.
  intros Hwf Hr.
  pose proof (fixed_coverage_bounded k l r Hr) as Hhi.
  pose proof (fixed_group_counts k l r Hr) as [_ [_ [[Hp1 _] _]]].
  assert (Hlow : Fixed.num_periods r <= Fixed.total_days_covered r).
  { pose proof Hr as Hr2. unfold Fixed.aggregate in Hr2.
    destruct l as [|x l']; [discriminate|].
    destruct (ORDER_BY_nonempty (x :: l')) as [s [e [t Hl]]]; [discriminate|].
    assert (Hall : Forall well_formed ((s, e) :: t)).
    { rewrite <- Hl. eapply Permutation_Forall; [apply ORDER_BY_perm | exact Hwf]. }
    inversion Hall as [|? ? Hse Hwft]; subst. unfold well_formed in Hse. simpl in Hse.
    pose proof (ordered_ORDER_BY (x :: l')) as Hord. rewrite Hl in Hord.
    apply ordered_tail in Hord. destruct Hord as [Hord Hle]. simpl in Hle.
    rewrite merged_periods_coverage_groups, Hl in Hr2.
    set (g := if s <=? TO_DATE 1900 1 1 + 1 then 0 else 1) in Hr2.
    rewrite (gaps_of_scan t g s e 1 Hord Hle) in Hr2.
    pose proof (scan_days_at_least_count t g s e 1 Hwft Hse) as Hc.
    destruct (scan_head t g s e 1) as [p [rest [Hp _]]]. rewrite Hp in *.
    destruct (patient_drug_pdc_row_periods k p rest) as [r' [Hr' [Hcov [_ [_ [_ [Hnp _]]]]]]].
    rewrite Hr2 in Hr'. injection Hr' as <-. rewrite Hcov, Hnp. exact Hc. }
  apply patient_drug_pdc_row_shape in Hr. destruct Hr as [_ [_ [_ Hpdc]]].
  assert (Htd : 0 < Fixed.treatment_duration r) by lia.
  replace (0 <? Fixed.treatment_duration r) with true in Hpdc
    by (symmetry; apply Z.ltb_lt, Htd).
  split; [lia|]. split; [exact Hhi|]. split; [exact Hpdc|].
  rewrite Hpdc. apply ROUND4_div_unit; lia.
Qed.

Lemma fixed_guard_never_fires_witness :
  option_map (fun r => 0 <=? Fixed.pdc r) (Fixed.aggregate (1, 1000) three_fills)
  = Some true.
Proof.
  destruct (Fixed.aggregate (1, 1000) three_fills) as [r|] eqn:E;
    [|vm_compute in E; discriminate].
  simpl. f_equal. apply Z.leb_le.
  apply (fixed_guard_never_fires (1, 1000) three_fills r); [|exact E].
  unfold three_fills, well_formed. repeat constructor; vm_compute; discriminate.
Defined.

(** ** Empty analysis ranges *)



